(** * MABE2 [tools/conversion/genome_manipulation.py]: the instruction table
      converter, embedded and verified.

    The Python module is translated function by function.  Python [str]
    values are modelled as [string] (sequences of 8-bit code points, read as
    the Latin-1 range of Unicode), dictionaries as [gmap], and the effects of
    the module -- printing, file access, object allocation, the mutable
    [GenomeManipulator] object and exceptions -- by a state-and-exception
    monad [M]. *)

From Stdlib Require Import ZArith Ascii String List Lia.
From stdpp Require Import base option list gmap strings pretty.

Local Open Scope string_scope.
Local Open Scope list_scope.
Local Open Scope Z_scope.

(** ** Python string primitives *)

Module Py.

(** [ch.isspace()] for a code point below 256: TAB..CR, FS..US, SPACE,
    NEL (0x85) and NBSP (0xA0).  [str.split()] and [str.strip()] use
    exactly this set. *)
Definition isspace (a : ascii) : bool :=
  let n := nat_of_ascii a in
  ((9 <=? n) && (n <=? 13) || (28 <=? n) && (n <=? 32)
   || (n =? 133) || (n =? 160))%nat.

(** Numeric_Type=Decimal below 256: the ASCII digits. *)
Definition isdecimal (a : ascii) : bool :=
  let n := nat_of_ascii a in ((48 <=? n) && (n <=? 57))%nat.

(** Numeric_Type in {Decimal, Digit} below 256: the ASCII digits and the
    superscripts 2, 3 (0xB2, 0xB3) and 1 (0xB9). *)
Definition isdigit_char (a : ascii) : bool :=
  let n := nat_of_ascii a in
  (isdecimal a || (n =? 178) || (n =? 179) || (n =? 185))%nat.

Fixpoint all_chars (p : ascii → bool) (s : string) : bool :=
  match s with
  | EmptyString => true
  | String a s' => p a && all_chars p s'
  end.

(** [s.isdigit()]: every character is a digit and there is at least one. *)
Definition isdigit (s : string) : bool :=
  match s with
  | EmptyString => false
  | _ => all_chars isdigit_char s
  end.

(** [s.lstrip()], [s.rstrip()], [s.strip()] *)
Fixpoint lstrip (s : string) : string :=
  match s with
  | EmptyString => EmptyString
  | String a s' => if isspace a then lstrip s' else s
  end.

Fixpoint rstrip (s : string) : string :=
  match s with
  | EmptyString => EmptyString
  | String a s' =>
      match rstrip s' with
      | EmptyString => if isspace a then EmptyString else String a EmptyString
      | r => String a r
      end
  end.

Definition strip (s : string) : string := rstrip (lstrip s).

(** [s.replace(old, '')] for a one-character [old]. *)
Fixpoint remove_char (old : ascii) (s : string) : string :=
  match s with
  | EmptyString => EmptyString
  | String a s' =>
      if Ascii.eqb a old then remove_char old s'
      else String a (remove_char old s')
  end.

Definition snoc (s : string) (a : ascii) : string := s +:+ String a EmptyString.

(** [s.split()]: maximal runs of non-whitespace characters.  [cur] is the
    token being collected. *)
Fixpoint split_ws_from (cur : string) (s : string) : list string :=
  match s with
  | EmptyString => match cur with EmptyString => [] | _ => [cur] end
  | String a s' =>
      if isspace a then
        match cur with
        | EmptyString => split_ws_from EmptyString s'
        | _ => cur :: split_ws_from EmptyString s'
        end
      else split_ws_from (snoc cur a) s'
  end.

Definition split_ws (s : string) : list string := split_ws_from EmptyString s.

(** [s.split(sep)] for a non-empty [sep]: cut at the non-overlapping
    occurrences of [sep], scanning from the left.  [skip] counts the
    characters of a matched separator that are still to be passed over. *)
Fixpoint split_sep_from (sep : string) (skip : nat) (cur : string) (s : string)
  : list string :=
  match s with
  | EmptyString => [cur]
  | String a s' =>
      match skip with
      | S k => split_sep_from sep k cur s'
      | O =>
          if String.prefix sep s
          then cur :: split_sep_from sep (Nat.pred (String.length sep)) EmptyString s'
          else split_sep_from sep O (snoc cur a) s'
      end
  end.

Definition split_sep (sep s : string) : list string :=
  split_sep_from sep O EmptyString s.

(** Iterating over a string yields its characters as one-character strings. *)
Fixpoint chars (s : string) : list string :=
  match s with
  | EmptyString => []
  | String a s' => String a EmptyString :: chars s'
  end.

(** The lines a text-mode file object yields: each keeps its newline, the
    last one may lack it. *)
Fixpoint lines_from (cur : string) (s : string) : list string :=
  match s with
  | EmptyString => match cur with EmptyString => [] | _ => [cur] end
  | String a s' =>
      if Ascii.eqb a "010"%char
      then snoc cur a :: lines_from EmptyString s'
      else lines_from (snoc cur a) s'
  end.

Definition lines (s : string) : list string := lines_from EmptyString s.

(** [int(s)] in base 10: surrounding whitespace is dropped, then an
    optional sign, then decimal digits in which single underscores may
    separate digits.  [None] is Python's [ValueError].  (The optional
    limit on the number of digits of recent interpreters is not modelled.) *)
Definition digit_val (a : ascii) : Z := Z.of_nat (nat_of_ascii a) - 48.

(** [acc] is the value read so far, [after_digit] tells whether the
    previous character was a digit. *)
Fixpoint int_digits (acc : Z) (after_digit : bool) (s : string) : option Z :=
  match s with
  | EmptyString => if after_digit then Some acc else None
  | String a s' =>
      if isdecimal a then int_digits (10 * acc + digit_val a) true s'
      else if Ascii.eqb a "_"%char
           then (if after_digit then int_digits acc false s' else None)
           else None
  end.

Definition int (s : string) : option Z :=
  match strip s with
  | String "+" s' => int_digits 0 false s'
  | String "-" s' => Z.opp <$> int_digits 0 false s'
  | s' => int_digits 0 false s'
  end.

(** [str(n)] for an integer. *)
Definition str_int (n : Z) : string := pretty n.

(** [s[-1]]: the last character, if any. *)
Fixpoint last_char (s : string) : option ascii :=
  match s with
  | EmptyString => None
  | String a EmptyString => Some a
  | String _ s' => last_char s'
  end.

End Py.

(** ** Data model *)

(** [class Instruction].  Python objects have an identity besides their
    attributes; [oid] is the allocation number of the object, so that two
    records built from equal rows remain distinguishable. *)
Record Instruction := mkInstruction {
  oid : nat;
  index : Z;
  id : Z;
  char : string;
  name : string
}.

Global Instance Instruction_eq_dec : EqDecision Instruction.
Proof. solve_decision. Defined.

(** [Instruction.__str__] *)
Definition Instruction_str (i : Instruction) : string :=
  "[index: " +:+ Py.str_int (index i) +:+ ", id: " +:+ Py.str_int (id i)
  +:+ ", char: " +:+ char i +:+ ", name: " +:+ name i +:+ "]".

(** The four dictionaries of a [GenomeManipulator] object. *)
Record GenomeManipulator := mkManip {
  index_map : gmap Z Instruction;
  id_map : gmap Z Instruction;
  char_map : gmap string Instruction;
  name_map : gmap string Instruction
}.

Definition empty_manip : GenomeManipulator := mkManip ∅ ∅ ∅ ∅.

(** What the module can observe and change: the files (by name, as the text
    that text-mode reading delivers), what has been written to standard
    output (one entry per [print] call), the allocation counter, and the
    manipulator object the methods are called on. *)
Record State := mkState {
  files : gmap string string;
  stdout : list string;
  next_oid : nat;
  self : GenomeManipulator
}.

Inductive exn :=
| IndexError
| KeyError (key : string)
| ValueError_int (literal : string)
| ValueError_empty_separator
| FileNotFoundError (path : string)
| SystemExit (code : option Z).

Inductive result (A : Type) :=
| Ok (a : A)
| Raise (e : exn).
Arguments Ok {A} a.
Arguments Raise {A} e.

(** ** The state-and-exception monad *)

Definition M (A : Type) : Type := State → State * result A.

Definition ret {A} (a : A) : M A := λ σ, (σ, Ok a).
Definition raise {A} (e : exn) : M A := λ σ, (σ, Raise e).
Definition bind {A B} (m : M A) (k : A → M B) : M B :=
  λ σ, match m σ with
       | (σ', Ok a) => k a σ'
       | (σ', Raise e) => (σ', Raise e)
       end.

(** stdpp's notations [x ← m; k] and [m;; k] are used for [bind]. *)
Global Instance M_ret : MRet M := @ret.
Global Instance M_bind : MBind M := λ A B k m, bind m k.

Definition get_self : M GenomeManipulator := λ σ, (σ, Ok (self σ)).
Definition set_self (g : GenomeManipulator) : M unit :=
  λ σ, (mkState (files σ) (stdout σ) (next_oid σ) g, Ok tt).

(** A [for] loop whose body updates the loop-carried variables [acc]. *)
Fixpoint for_ {A B} (l : list A) (acc : B) (body : B → A → M B) : M B :=
  match l with
  | [] => ret acc
  | x :: l' => acc' ← body acc x; for_ l' acc' body
  end.

(** A value from an [option], raising [e] when there is none. *)
Definition from_option_or {A} (e : exn) (o : option A) : M A :=
  match o with Some a => ret a | None => raise e end.

(** [l[i]] for [i >= 0] *)
Definition getitem (l : list string) (i : nat) : M string :=
  from_option_or IndexError (l !! i).

(** [d[k]] on a dictionary with string keys *)
Definition dict_getitem (d : gmap string Instruction) (k : string) : M Instruction :=
  from_option_or (KeyError k) (d !! k).

(** [k in d] *)
Definition dict_contains (d : gmap string Instruction) (k : string) : bool :=
  bool_decide (is_Some (d !! k)).

(** [int(s)] *)
Definition int (s : string) : M Z :=
  from_option_or (ValueError_int s) (Py.int s).

(** [print(a, b, ...)]: the arguments separated by spaces, then a newline. *)
Fixpoint join_space (args : list string) : string :=
  match args with
  | [] => EmptyString
  | [a] => a
  | a :: rest => a +:+ " " +:+ join_space rest
  end.

Definition print (args : list string) : M unit :=
  λ σ, (mkState (files σ) (stdout σ ++ [join_space args +:+ String "010" EmptyString])
                (next_oid σ) (self σ), Ok tt).

(** [quit()] raises [SystemExit] with no exit code. *)
Definition quit {A} : M A := raise (SystemExit None).

(** The exit status of the interpreter for a program that ended with [r]. *)
Definition exit_status {A} (r : result A) : Z :=
  match r with
  | Ok _ => 0
  | Raise (SystemExit None) => 0
  | Raise (SystemExit (Some n)) => n `mod` 256
  | Raise _ => 1
  end.

(** ** The module's functions *)

Definition ESC : string := String (ascii_of_nat 27) EmptyString.

(** [throw_error] *)
Definition throw_error {A} (error_str : string) : M A :=
  print [ESC +:+ "[91mError!" +:+ ESC +:+ "[0m"; error_str];; quit.

(** [read_whole_file] *)
Definition read_whole_file (filename : string) : M string :=
  λ σ, from_option_or (FileNotFoundError filename) (files σ !! filename) σ.

(** [write_to_file].  [file_write] is [fp.write(s)] on the file opened with
    'w': afterwards the file holds [s], which is also what a later text-mode
    read delivers when [s] holds no carriage return (a text-mode read turns
    carriage returns into newlines). *)
Definition file_write (filename s : string) : M unit :=
  λ σ, (mkState (<[filename := s]> (files σ)) (stdout σ) (next_oid σ) (self σ), Ok tt).

Definition write_to_file (filename s : string) : M unit :=
  last ← from_option_or IndexError (Py.last_char s);
  let s := if Ascii.eqb last "010" then s else s +:+ String "010" EmptyString in
  file_write filename s.

(** [split_name_file] *)
Definition str_split (s delim : string) : M (list string) :=
  match delim with
  | EmptyString => raise ValueError_empty_separator
  | _ => ret (Py.split_sep delim s)
  end.

Definition newline : string := String "010" EmptyString.

Definition split_name_file (filename : string) (delim : string) : M (list string) :=
  full_text ← read_whole_file filename;
  L ← str_split full_text delim;
  ret (Py.strip <$> L).

(** [Instruction(_index, _id, _char, _name)]: a new object. *)
Definition new_Instruction (_index _id : Z) (_char _name : string) : M Instruction :=
  λ σ, (mkState (files σ) (stdout σ) (S (next_oid σ)) (self σ),
        Ok (mkInstruction (next_oid σ) _index _id _char _name)).

(** The four column positions, local variables of the loader. *)
Record Cols := mkCols {
  index_col_idx : nat;
  id_col_idx : nat;
  char_col_idx : nat;
  name_col_idx : nat
}.

Definition default_cols : Cols := mkCols 0 1 2 3.

Definition str_nat (n : nat) : string := Py.str_int (Z.of_nat n).

Definition print_cols (cols : Cols) : M unit :=
  print ["index:"; str_nat (index_col_idx cols)];;
  print ["id:"; str_nat (id_col_idx cols)];;
  print ["char:"; str_nat (char_col_idx cols)];;
  print ["name:"; str_nat (name_col_idx cols)].

(** The body of the header loop, for position [i] holding [tok]. *)
Definition header_step (cols : Cols) (i : nat) (tok : string) : M Cols :=
  let part := Py.strip tok in
  if decide (part = "index") then
    ret (mkCols i (id_col_idx cols) (char_col_idx cols) (name_col_idx cols))
  else if decide (part = "id") then
    ret (mkCols (index_col_idx cols) i (char_col_idx cols) (name_col_idx cols))
  else if decide (part = "char") then
    ret (mkCols (index_col_idx cols) (id_col_idx cols) i (name_col_idx cols))
  else if decide (part = "name") then
    ret (mkCols (index_col_idx cols) (id_col_idx cols) (char_col_idx cols) i)
  else
    print ["Found unknown column: " +:+ part];; ret cols.

(** [for i in range(len(line_parts))], from position [i] on. *)
Fixpoint header_loop (i : nat) (line_parts : list string) (cols : Cols) : M Cols :=
  match line_parts with
  | [] => ret cols
  | tok :: rest => cols' ← header_step cols i tok; header_loop (S i) rest cols'
  end.

(** Storing one record under its four keys. *)
Definition insert_inst (inst : Instruction) (g : GenomeManipulator) : GenomeManipulator :=
  mkManip (<[index inst := inst]> (index_map g))
          (<[id inst := inst]> (id_map g))
          (<[char inst := inst]> (char_map g))
          (<[name inst := inst]> (name_map g)).

(** The body of the data loop, for one line of the file. *)
Definition load_line (cols : Cols) (line : string) : M unit :=
  let line := Py.remove_char "," line in
  let line_parts := Py.split_ws line in
  tok_index ← getitem line_parts (index_col_idx cols);
  inst_index ← int tok_index;
  tok_id ← getitem line_parts (id_col_idx cols);
  inst_id ← int tok_id;
  inst_char ← getitem line_parts (char_col_idx cols);
  inst_name ← getitem line_parts (name_col_idx cols);
  inst ← new_Instruction inst_index inst_id inst_char inst_name;
  g ← get_self;
  set_self (insert_inst inst g);;
  print [Instruction_str inst].

Definition load_rows (cols : Cols) (rows : list string) : M unit :=
  for_ rows tt (λ _ line, load_line cols line).

(** [open(filename, 'r')]: the text the file object will deliver. *)
Definition open_for_reading (filename : string) : M string :=
  read_whole_file filename.

(** The first part of [read_instruction_set_file], up to the data loop: it
    settles the column positions and where the data loop starts reading.
    [fp] is the list of the lines not read yet; [fp.seek(0)] makes it the
    whole file again. *)
Definition read_header (text : string) : M (Cols * list string) :=
  let fp := Py.lines text in
  let line := hd EmptyString fp in
  let fp := tl fp in
  let line := Py.remove_char "," line in
  let line_parts := Py.split_ws line in
  first ← getitem line_parts 0;
  if Py.isdigit (Py.remove_char "," first) then
    let fp := Py.lines text in
    print ["No header detected. Using default column indices:"];;
    print_cols default_cols;;
    ret (default_cols, fp)
  else
    cols ← header_loop 0 line_parts default_cols;
    print ["After parsing header, column indices are as follows:"];;
    print_cols cols;;
    ret (cols, fp).

(** [GenomeManipulator.read_instruction_set_file] *)
Definition read_instruction_set_file (filename : string) : M unit :=
  text ← open_for_reading filename;
  '(cols, fp) ← read_header text;
  load_rows cols fp.

(** [GenomeManipulator.__init__] *)
Definition GenomeManipulator_init (_filename : option string) : M unit :=
  set_self empty_manip;;
  match _filename with
  | Some f => read_instruction_set_file f
  | None => ret tt
  end.

(** [GenomeManipulator.convert_chars_to_names] *)
Definition chars_to_names_step (output_str c : string) : M string :=
  g ← get_self;
  (if dict_contains (char_map g) c then ret tt
   else throw_error ("Unknown symbol: " +:+ c));;
  inst ← dict_getitem (char_map g) c;
  ret (output_str +:+ name inst +:+ newline).

Definition convert_chars_to_names (s : string) : M string :=
  for_ (Py.chars s) EmptyString chars_to_names_step.

(** [GenomeManipulator.convert_names_to_chars] *)
Definition names_to_chars_step (output_str s : string) : M string :=
  let s := Py.strip s in
  if (String.length s =? 0)%nat then ret output_str
  else
    g ← get_self;
    (if dict_contains (name_map g) s then ret tt
     else throw_error ("Unknown name: " +:+ s));;
    inst ← dict_getitem (name_map g) s;
    ret (output_str +:+ char inst).

Definition convert_names_to_chars (name_list : list string) : M string :=
  for_ name_list EmptyString names_to_chars_step.

(** The script run as a program. *)
Definition alphabet : string := "abcdefghijklmnopqrstuvwxyz".

Definition main : M unit :=
  GenomeManipulator_init (Some "inst_set.txt");;
  s ← convert_chars_to_names alphabet; print [s];;
  s ← convert_chars_to_names alphabet;
  write_to_file "converted_symbol_list.org" s;;
  name_list ← split_name_file "ancestor_extended.org" newline;
  s ← convert_names_to_chars name_list; print [s];;
  s ← convert_names_to_chars name_list;
  write_to_file "converted_name_list.org" s.

(** ** Concrete inputs used in the examples *)

Definition state0 (fs : list (string * string)) : State :=
  mkState (list_to_map fs) [] 0 empty_manip.

Definition two_rows : string := "0 0 a nop-A
1 1 b nop-B
".

Definition st_two : State :=
  fst (GenomeManipulator_init (Some "inst_set.txt") (state0 [("inst_set.txt", two_rows)])).


(** ** Notions used in the statements *)

(** The state after one more [print] call that wrote [msg]. *)
Definition printed (msg : string) (σ : State) : State :=
  mkState (files σ) (stdout σ ++ [msg]) (next_oid σ) (self σ).

(** What [throw_error error_str] writes. *)
Definition error_report (error_str : string) : string :=
  join_space [ESC +:+ "[91mError!" +:+ ESC +:+ "[0m"; error_str] +:+ newline.

(** One name per line, each followed by a newline. *)
Fixpoint name_lines (names : list string) : string :=
  match names with
  | [] => EmptyString
  | n :: rest => n +:+ newline +:+ name_lines rest
  end.

(** Concatenation with no separator. *)
Fixpoint concat_strings (l : list string) : string :=
  match l with
  | [] => EmptyString
  | s :: rest => s +:+ concat_strings rest
  end.

(** An entry that is empty once trimmed. *)
Definition is_blank (s : string) : bool := (String.length (Py.strip s) =? 0)%nat.

Definition known_char (σ : State) (c : string) : Prop := is_Some (char_map (self σ) !! c).
Definition known_name (σ : State) (n : string) : Prop := is_Some (name_map (self σ) !! n).

Global Instance known_char_dec σ c : Decision (known_char σ c).
Proof. unfold known_char. apply _. Defined.

Global Instance known_name_dec σ n : Decision (known_name σ n).
Proof. unfold known_name. apply _. Defined.

(** An entry [convert_names_to_chars] accepts: blank, or a known name once
    trimmed. *)
Definition accepted_entry (σ : State) (n : string) : Prop :=
  is_blank n = false → known_name σ (Py.strip n).

Global Instance accepted_entry_dec σ n : Decision (accepted_entry σ n).
Proof. unfold accepted_entry. apply _. Defined.

(** The state after [write_to_file] stored [s] under [filename]. *)
Definition file_stored (filename s : string) (σ : State) : State :=
  mkState (<[filename := s]> (files σ)) (stdout σ) (next_oid σ) (self σ).

(** The state after the data loop handled a row that gave the record [inst]. *)
Definition row_loaded (inst : Instruction) (σ : State) : State :=
  mkState (files σ) (stdout σ ++ [Instruction_str inst +:+ newline])
          (S (next_oid σ)) (insert_inst inst (self σ)).

(** The state after some more [print] calls. *)
Definition printed_all (msgs : list string) (σ : State) : State :=
  mkState (files σ) (stdout σ ++ msgs) (next_oid σ) (self σ).

(** The tokens of a line of the table file. *)
Definition line_tokens (line : string) : list string :=
  Py.split_ws (Py.remove_char "," line).

(** A token: not empty and without whitespace. *)
Definition no_space (s : string) : Prop :=
  Py.all_chars (λ a, negb (Py.isspace a)) s = true.

Definition is_token (s : string) : Prop := s ≠ EmptyString ∧ no_space s.

(** The header tokens that are none of the four column names, and the
    warnings printed for them. *)
Definition is_column_name (t : string) : bool :=
  bool_decide (t = "index" ∨ t = "id" ∨ t = "char" ∨ t = "name").

Definition header_warnings (line_parts : list string) : list string :=
  (λ t, ("Found unknown column: " +:+ t) +:+ newline)
    <$> List.filter (λ t, negb (is_column_name t)) line_parts.

Definition no_header_file : string := "3 7 c nop-C
0 0 a nop-A
".

(** What [print_cols] writes. *)
Definition cols_report (cols : Cols) : list string :=
  [ "index: " +:+ str_nat (index_col_idx cols) +:+ newline;
    "id: " +:+ str_nat (id_col_idx cols) +:+ newline;
    "char: " +:+ str_nat (char_col_idx cols) +:+ newline;
    "name: " +:+ str_nat (name_col_idx cols) +:+ newline ].

(** The column a header gives to the name [t]: the position of its last
    occurrence among [line_parts] (which start at position [i]), or [d] when
    it does not occur. *)
Fixpoint last_pos (t : string) (i : nat) (line_parts : list string) (d : nat) : nat :=
  match line_parts with
  | [] => d
  | p :: rest => last_pos t (S i) rest (if decide (p = t) then i else d)
  end.

Definition reordered_file : string := "id,name,char,index
5 6 a 7
".

Definition spaced_header_file : string := "id, name, char, extra, index
5, nop-A, a, zzz, 7
".

(** ** The table as a set of shared records *)

Definition stored_in `{Countable K} (m : gmap K Instruction) (i : Instruction) : Prop :=
  ∃ k, m !! k = Some i.

(** A record that can be reached from one of the four mappings. *)
Definition reachable (g : GenomeManipulator) (i : Instruction) : Prop :=
  stored_in (index_map g) i ∨ stored_in (id_map g) i
  ∨ stored_in (char_map g) i ∨ stored_in (name_map g) i.

Definition under_exactly_one_key `{Countable K} (m : gmap K Instruction)
    (i : Instruction) : Prop :=
  ∃ k, m !! k = Some i ∧ ∀ k', m !! k' = Some i → k' = k.

(** The only key [i] can be found under in [m] is its own attribute [key i]. *)
Definition only_under_own_key `{Countable K} (m : gmap K Instruction)
    (key : Instruction → K) (i : Instruction) : Prop :=
  ∀ k, m !! k = Some i → k = key i.

(** Every reachable record is in each of the four mappings, under one key. *)
Definition every_record_once (g : GenomeManipulator) : Prop :=
  ∀ i, reachable g i →
    under_exactly_one_key (index_map g) i ∧ under_exactly_one_key (id_map g) i
    ∧ under_exactly_one_key (char_map g) i ∧ under_exactly_one_key (name_map g) i.

(** Last loaded wins: at the key that [i] was stored under, [m] holds [i] or
    a record allocated after it. *)
Definition holds_latest `{Countable K} (m : gmap K Instruction)
    (key : Instruction → K) (i : Instruction) : Prop :=
  ∃ j, m !! key i = Some j ∧ (oid i ≤ oid j)%nat.

(** No two reachable records share an index, an id, a char or a name. *)
Definition no_shared_attribute (g : GenomeManipulator) : Prop :=
  ∀ i j, reachable g i → reachable g j →
    index i = index j ∨ id i = id j ∨ char i = char j ∨ name i = name j →
    i = j.

(** What holds of the table whenever the loader has run, [n] being the
    allocation counter. *)
Record table_inv (g : GenomeManipulator) (n : nat) : Prop := mkTableInv {
  inv_index_key : ∀ k i, index_map g !! k = Some i → index i = k;
  inv_id_key : ∀ k i, id_map g !! k = Some i → id i = k;
  inv_char_key : ∀ k i, char_map g !! k = Some i → char i = k;
  inv_name_key : ∀ k i, name_map g !! k = Some i → name i = k;
  inv_oid_bound : ∀ i, reachable g i → (oid i < n)%nat;
  inv_oid_inj : ∀ i j, reachable g i → reachable g j → oid i = oid j → i = j;
  inv_index_latest : ∀ i, reachable g i → holds_latest (index_map g) index i;
  inv_id_latest : ∀ i, reachable g i → holds_latest (id_map g) id i;
  inv_char_latest : ∀ i, reachable g i → holds_latest (char_map g) char i;
  inv_name_latest : ∀ i, reachable g i → holds_latest (name_map g) name i;
  inv_tokens : ∀ i, reachable g i → is_token (char i) ∧ is_token (name i)
}.

Definition shared_char_file : string := "0 0 a nop-A
1 1 a nop-B
".

Definition shared_name_file : string := "0 0 a nop-A
1 1 b nop-A
".

(** [convert_names_to_chars(convert_chars_to_names(s).split('\n'))] *)
Definition round_trip (s : string) : M string :=
  names ← convert_chars_to_names s;
  name_list ← str_split names newline;
  convert_names_to_chars name_list.

(** The files of a run of the script in which only a and b are in the table. *)
Definition script_files : list (string * string) :=
  [("inst_set.txt", two_rows); ("ancestor_extended.org", "nop-A
nop-B
")].

Definition st_script : State :=
  fst (GenomeManipulator_init (Some "inst_set.txt") (state0 script_files)).

(** A table with a row for each letter, and an organism file with a line
    that is no name of it. *)
Definition full_table_file : string := "index id char name
0 0 a nop-A
1 1 b nop-B
2 2 c nop-C
3 3 d nop-D
4 4 e nop-E
5 5 f nop-F
6 6 g nop-G
7 7 h nop-H
8 8 i nop-I
9 9 j nop-J
10 10 k nop-K
11 11 l nop-L
12 12 m nop-M
13 13 n nop-N
14 14 o nop-O
15 15 p nop-P
16 16 q nop-Q
17 17 r nop-R
18 18 s nop-S
19 19 t nop-T
20 20 u nop-U
21 21 v nop-V
22 22 w nop-W
23 23 x nop-X
24 24 y nop-Y
25 25 z nop-Z
".

Definition script_files_unknown_name : list (string * string) :=
  [("inst_set.txt", full_table_file); ("ancestor_extended.org", "nop-C
  nop-A

nop-?
nop-B
")].

Definition st_full : State :=
  fst (GenomeManipulator_init (Some "inst_set.txt") (state0 script_files_unknown_name)).

(** ** Further notions: what a load keeps and what it can raise *)

(** Every key of [g] is still a key of [g']. *)
Definition keys_kept (g g' : GenomeManipulator) : Prop :=
  (∀ k, is_Some (index_map g !! k) → is_Some (index_map g' !! k))
  ∧ (∀ k, is_Some (id_map g !! k) → is_Some (id_map g' !! k))
  ∧ (∀ k, is_Some (char_map g !! k) → is_Some (char_map g' !! k))
  ∧ (∀ k, is_Some (name_map g !! k) → is_Some (name_map g' !! k)).

(** A string without commas. *)
Definition no_comma (s : string) : Prop :=
  Py.all_chars (λ a, negb (Ascii.eqb a ",")) s = true.

Definition blank_line_file : string := "0 0 a nop-A

1 1 b nop-B
".

(** [σ'] comes from [σ] by adding: no key of the four mappings is lost, the
    files are the same, the output is extended, and the allocation counter
    has not gone back. *)
Definition grown_from (σ σ' : State) : Prop :=
  keys_kept (self σ) (self σ')
  ∧ files σ' = files σ
  ∧ (∃ more, stdout σ' = stdout σ ++ more)
  ∧ (next_oid σ ≤ next_oid σ')%nat.

Definition two_files : list (string * string) :=
  [("inst_set.txt", two_rows); ("more.txt", "id index name char
2 2 nop-C c
3 3 nop-B2 b
")].

(** Symbols to names, through a file, and back: the two halves of the
    script applied to one symbol string. *)
Definition file_round_trip (filename s : string) : M string :=
  names ← convert_chars_to_names s;
  write_to_file filename names;;
  name_list ← split_name_file filename newline;
  convert_names_to_chars name_list.

(** [convert_chars_to_names(convert_names_to_chars(name_list))] *)
Definition names_round_trip (name_list : list string) : M string :=
  symbols ← convert_names_to_chars name_list;
  convert_chars_to_names symbols.

(** A string of exactly one character. *)
Definition one_char (s : string) : Prop := ∃ a, s = String a EmptyString.

(** A table whose second row has a char of two characters. *)
Definition long_char_file : string := "0 0 a nop-A
1 1 bc nop-B
".

(** The column [k] a header's tokens [line_parts] give to the name [t], [d]
    being the default: the position of the last occurrence of [t], or [d]
    when [t] does not occur. *)
Definition header_column (line_parts : list string) (t : string) (d k : nat) : Prop :=
  ((∀ j, line_parts !! j ≠ Some t) ∧ k = d)
  ∨ (line_parts !! k = Some t ∧ ∀ j, (k < j)%nat → line_parts !! j ≠ Some t).

(** A header that names two of the columns, one of them twice. *)
Definition partial_header_file : string := "name, char, name
a nop-A 0 0
".

(** A stored token: not empty, without whitespace and without commas. *)
Definition clean_token (s : string) : Prop := is_token s ∧ no_comma s.

(** [P] holds of every record reachable in [g]. *)
Definition records_all (P : Instruction → Prop) (g : GenomeManipulator) : Prop :=
  ∀ i, reachable g i → P i.

Definition clean_record (i : Instruction) : Prop :=
  clean_token (char i) ∧ clean_token (name i).

(** The second half of the script, from the reading of the organism file. *)
Definition main_second_half : M unit :=
  name_list ← split_name_file "ancestor_extended.org" newline;
  s ← convert_names_to_chars name_list; print [s];;
  s ← convert_names_to_chars name_list;
  write_to_file "converted_name_list.org" s.

(** The entries the script reads from an organism file with text [text]. *)
Definition organism_entries (text : string) : list string :=
  Py.strip <$> Py.split_sep newline text.

Definition script_files_ok : list (string * string) :=
  [("inst_set.txt", full_table_file); ("ancestor_extended.org", "nop-C
  nop-A

nop-B
")].

Definition script_files_blank : list (string * string) :=
  [("inst_set.txt", full_table_file); ("ancestor_extended.org", "
  
")].

Definition organism_ok : string := "nop-C
  nop-A

nop-B
".

Definition st_ok : State :=
  fst (GenomeManipulator_init (Some "inst_set.txt") (state0 script_files_ok)).

(** A string without carriage returns: what a text-mode read gives back as
    it was written. *)
Definition no_carriage_return (s : string) : Prop :=
  Py.all_chars (λ a, negb (Ascii.eqb a "013")) s = true.

(** A headerless table whose first row starts with a signed number. *)
Definition signed_first_file : string := "-1 0 a nop-A
0 0 b nop-B
".
(** ** Running the model on small inputs *)

Example split_ws_ex :
  Py.split_ws "  0 1	a  nop-A
" = ["0"; "1"; "a"; "nop-A"].
Proof. reflexivity. Qed.

Example split_sep_ex :
  Py.split_sep "
" "nop-A
nop-B
" = ["nop-A"; "nop-B"; ""].
Proof. reflexivity. Qed.

Example split_sep_ex2 : Py.split_sep "ab" "xabab" = ["x"; ""; ""].
Proof. reflexivity. Qed.

Example lines_ex : Py.lines "a
b" = ["a
"; "b"].
Proof. reflexivity. Qed.

Example int_ex :
  Py.int "1_000" = Some 1000 ∧ Py.int "-07" = Some (-7) ∧ Py.int "+5" = Some 5
  ∧ Py.int "1__0" = None ∧ Py.int "_1" = None ∧ Py.int "1_" = None
  ∧ Py.int "" = None ∧ Py.int "-" = None ∧ Py.int "12a" = None.
Proof. repeat split; reflexivity. Qed.

Example strip_ex : Py.strip "  nop A 	" = "nop A".
Proof. reflexivity. Qed.

Example str_int_ex : Py.str_int (-12) = "-12" ∧ Py.str_int 0 = "0".
Proof. split; vm_compute; reflexivity. Qed.

Example load_two_rows :
  char_map (self st_two) !! "a" = Some (mkInstruction 0 0 0 "a" "nop-A")
  ∧ name_map (self st_two) !! "nop-B" = Some (mkInstruction 1 1 1 "b" "nop-B")
  ∧ stdout st_two !! 5%nat = Some "[index: 0, id: 0, char: a, name: nop-A]
".
Proof. vm_compute. repeat split; reflexivity. Qed.

(** ** The monad and the loops *)

Ltac munfold :=
  unfold from_option_or in *;
  unfold mbind, M_bind, mret, M_ret, bind, ret, raise in *.

Lemma bind_ok {A B} (m : M A) (k : A → M B) σ σ' a :
  m σ = (σ', Ok a) → (m ≫= k) σ = k a σ'.
Proof. intros H. munfold. by rewrite H. Qed.

Lemma bind_raise {A B} (m : M A) (k : A → M B) σ σ' e :
  m σ = (σ', Raise e) → (m ≫= k) σ = (σ', Raise e).
Proof. intros H. munfold. by rewrite H. Qed.

Lemma for_app {A B} (l1 l2 : list A) (acc : B) body σ :
  for_ (l1 ++ l2) acc body σ = (acc' ← for_ l1 acc body; for_ l2 acc' body) σ.
Proof.
  revert acc σ. induction l1 as [|x l1 IH]; intros acc σ; simpl.
  - reflexivity.
  - munfold. destruct (body acc x σ) as [σ1 [acc1|e]]; [apply IH | reflexivity].
Qed.

(** A loop whose body succeeds on a prefix and raises on the next element
    stops there. *)
Lemma for_raise {A B} (pre post : list A) (x : A) (acc acc' : B) body σ σ1 σ2 e :
  for_ pre acc body σ = (σ1, Ok acc') →
  body acc' x σ1 = (σ2, Raise e) →
  for_ (pre ++ x :: post) acc body σ = (σ2, Raise e).
Proof.
  intros Hpre Hx. rewrite for_app. erewrite bind_ok by exact Hpre.
  simpl. by erewrite bind_raise.
Qed.

Lemma string_app_cons (a : ascii) (s t : string) : String a s +:+ t = String a (s +:+ t).
Proof. reflexivity. Qed.

Lemma string_app_nil_l (s : string) : EmptyString +:+ s = s.
Proof. reflexivity. Qed.

Lemma string_app_assoc (s1 s2 s3 : string) : (s1 +:+ s2) +:+ s3 = s1 +:+ s2 +:+ s3.
Proof.
  induction s1 as [|a s1 IH]; [reflexivity|].
  by rewrite !string_app_cons, IH.
Qed.

Lemma string_app_nil_r (s : string) : s +:+ EmptyString = s.
Proof.
  induction s as [|a s IH]; [reflexivity|]. by rewrite string_app_cons, IH.
Qed.

(** ** The two conversions *)

Lemma throw_error_run {A} (error_str : string) σ :
  @throw_error A error_str σ = (printed (error_report error_str) σ, Raise (SystemExit None)).
Proof. reflexivity. Qed.

Lemma chars_to_names_step_known σ out c i :
  char_map (self σ) !! c = Some i →
  chars_to_names_step out c σ = (σ, Ok (out +:+ name i +:+ newline)).
Proof.
  intros Hc. unfold chars_to_names_step, get_self, dict_contains, dict_getitem.
  munfold. rewrite Hc. rewrite bool_decide_eq_true_2 by eauto. reflexivity.
Qed.

Lemma chars_to_names_step_unknown σ out c :
  char_map (self σ) !! c = None →
  chars_to_names_step out c σ
  = (printed (error_report ("Unknown symbol: " +:+ c)) σ, Raise (SystemExit None)).
Proof.
  intros Hc. unfold chars_to_names_step, get_self, dict_contains.
  munfold. rewrite Hc.
  rewrite bool_decide_eq_false_2 by (intros [? ?]; discriminate).
  by rewrite throw_error_run.
Qed.

Lemma names_to_chars_step_blank σ out n :
  is_blank n = true → names_to_chars_step out n σ = (σ, Ok out).
Proof. unfold names_to_chars_step, is_blank. intros ->. reflexivity. Qed.

Lemma names_to_chars_step_known σ out n i :
  is_blank n = false →
  name_map (self σ) !! Py.strip n = Some i →
  names_to_chars_step out n σ = (σ, Ok (out +:+ char i)).
Proof.
  unfold names_to_chars_step, is_blank, get_self, dict_contains, dict_getitem.
  intros -> Hn. munfold. rewrite Hn. rewrite bool_decide_eq_true_2 by eauto.
  reflexivity.
Qed.

Lemma names_to_chars_step_unknown σ out n :
  is_blank n = false →
  name_map (self σ) !! Py.strip n = None →
  names_to_chars_step out n σ
  = (printed (error_report ("Unknown name: " +:+ Py.strip n)) σ, Raise (SystemExit None)).
Proof.
  unfold names_to_chars_step, is_blank, get_self, dict_contains.
  intros -> Hn. munfold. rewrite Hn.
  rewrite bool_decide_eq_false_2 by (intros [? ?]; discriminate).
  by rewrite throw_error_run.
Qed.

Lemma chars_loop_known σ cs insts out :
  Forall2 (λ c i, char_map (self σ) !! c = Some i) cs insts →
  for_ cs out chars_to_names_step σ = (σ, Ok (out +:+ name_lines (name <$> insts))).
Proof.
  intros H. revert out. induction H as [|c i cs insts Hc _ IH]; intros out; simpl.
  - by rewrite string_app_nil_r.
  - erewrite bind_ok by (by apply chars_to_names_step_known).
    rewrite IH. simpl. by rewrite !string_app_assoc.
Qed.

Lemma names_loop_known σ l insts out :
  Forall2 (λ n i, name_map (self σ) !! Py.strip n = Some i)
          (List.filter (λ n, negb (is_blank n)) l) insts →
  for_ l out names_to_chars_step σ = (σ, Ok (out +:+ concat_strings (char <$> insts))).
Proof.
  revert insts out. induction l as [|n l IH]; intros insts out H; simpl in *.
  - inversion H; subst. simpl. by rewrite string_app_nil_r.
  - destruct (is_blank n) eqn:Hb; simpl in H.
    + erewrite bind_ok by (by apply names_to_chars_step_blank). by apply IH.
    + inversion H as [|? i ? insts' Hn Hrest]; subst.
      erewrite bind_ok by (by apply names_to_chars_step_known).
      rewrite (IH insts') by done. simpl. by rewrite string_app_assoc.
Qed.

(** Every known key has a record: the list of records a loop will meet. *)
Lemma Forall_lookup_records {V} (m : gmap string V) (f : string → string) (l : list string) :
  Forall (λ k, is_Some (m !! f k)) l →
  ∃ vs, Forall2 (λ k v, m !! f k = Some v) l vs.
Proof.
  induction 1 as [|k l [v Hv] _ [vs IH]].
  - exists []. constructor.
  - exists (v :: vs). by constructor.
Qed.

Lemma first_failure {A} (P : A → Prop) `{∀ x, Decision (P x)} (l : list A) :
  ¬ Forall P l →
  ∃ pre x post, l = pre ++ x :: post ∧ Forall P pre ∧ ¬ P x.
Proof.
  induction l as [|x l IH]; intros Hn.
  - destruct Hn. constructor.
  - destruct (decide (P x)) as [Hx|Hx].
    + destruct IH as (pre & y & post & -> & Hpre & Hy).
      { intros Hl. apply Hn. by constructor. }
      exists (x :: pre), y, post. repeat split; [by constructor | done].
    + exists [], x, l. repeat split; [constructor | done].
Qed.

Lemma List_filter_idem {A} (p : A → bool) (l : list A) :
  List.filter p (List.filter p l) = List.filter p l.
Proof.
  induction l as [|x l IH]; simpl; [done|].
  destruct (p x) eqn:Hx; simpl; [|done]. by rewrite Hx, IH.
Qed.

Lemma st_two_char_a : char_map (self st_two) !! "a" = Some (mkInstruction 0 0 0 "a" "nop-A").
Proof. vm_compute. reflexivity. Qed.

Lemma st_two_char_b : char_map (self st_two) !! "b" = Some (mkInstruction 1 1 1 "b" "nop-B").
Proof. vm_compute. reflexivity. Qed.

Lemma st_two_char_x : char_map (self st_two) !! "x" = None.
Proof. vm_compute. reflexivity. Qed.

(** C2.  When every character of [s] is a key of the char mapping,
    [convert_chars_to_names s] returns -- leaving the state as it was -- the
    names of the characters' records in input order, each followed by a
    newline; and on the table with rows (0,0,a,nop-A), (1,1,b,nop-B) the
    input ab gives nop-A and nop-B on a line each. *)
Theorem convert_chars_to_names_one_name_per_line :
  (∀ σ s,
     Forall (known_char σ) (Py.chars s) →
     ∃ insts,
       Forall2 (λ c i, char_map (self σ) !! c = Some i) (Py.chars s) insts
       ∧ convert_chars_to_names s σ = (σ, Ok (name_lines (name <$> insts))))
  ∧ convert_chars_to_names "ab" st_two = (st_two, Ok "nop-A
nop-B
").
Proof.
  split.
  - intros σ s Hs.
    destruct (Forall_lookup_records (char_map (self σ)) (λ c, c) (Py.chars s) Hs)
      as [insts Hi].
    exists insts. split; [done|].
    unfold convert_chars_to_names. by rewrite (chars_loop_known σ _ insts).
  - unfold convert_chars_to_names.
    rewrite (chars_loop_known st_two _
               [mkInstruction 0 0 0 "a" "nop-A"; mkInstruction 1 1 1 "b" "nop-B"]).
    + reflexivity.
    + constructor; [apply st_two_char_a|].
      constructor; [apply st_two_char_b | constructor].
Qed.

Lemma convert_chars_to_names_one_name_per_line_witness :
  ∃ insts,
    Forall2 (λ c i, char_map (self st_two) !! c = Some i) (Py.chars "ba") insts
    ∧ convert_chars_to_names "ba" st_two = (st_two, Ok (name_lines (name <$> insts))).
Proof.
  apply (proj1 convert_chars_to_names_one_name_per_line st_two "ba").
  repeat constructor; unfold known_char; vm_compute; eauto.
Defined.

(** C3.  When the non-blank entries of [name_list], once trimmed, are keys
    of the name mapping, [convert_names_to_chars] returns the chars of the
    records of the trimmed non-blank entries, concatenated in input order
    with nothing in between; blank entries contribute nothing, so the result
    is that of the list with the blank entries removed. *)
Theorem convert_names_to_chars_skips_blanks σ (name_list : list string) :
  Forall (accepted_entry σ) name_list →
  (∃ insts,
     Forall2 (λ n i, name_map (self σ) !! Py.strip n = Some i)
             (List.filter (λ n, negb (is_blank n)) name_list) insts
     ∧ convert_names_to_chars name_list σ = (σ, Ok (concat_strings (char <$> insts))))
  ∧ convert_names_to_chars name_list σ
    = convert_names_to_chars (List.filter (λ n, negb (is_blank n)) name_list) σ.
Proof.
  intros Hl.
  assert (Forall (λ n, is_Some (name_map (self σ) !! Py.strip n))
            (List.filter (λ n, negb (is_blank n)) name_list)) as Hf.
  { apply List.Forall_forall. intros n Hn. apply List.filter_In in Hn as [Hin Hnb].
    rewrite List.Forall_forall in Hl. apply Hl; [done|].
    by destruct (is_blank n). }
  destruct (Forall_lookup_records _ Py.strip _ Hf) as [insts Hi].
  assert (convert_names_to_chars name_list σ = (σ, Ok (concat_strings (char <$> insts))))
    as Hrun.
  { unfold convert_names_to_chars. by rewrite (names_loop_known σ _ insts). }
  split.
  - by exists insts.
  - rewrite Hrun. unfold convert_names_to_chars.
    rewrite (names_loop_known σ _ insts); [done|].
    by rewrite List_filter_idem.
Qed.

Lemma convert_names_to_chars_skips_blanks_witness :
  (∃ insts,
     Forall2 (λ n i, name_map (self st_two) !! Py.strip n = Some i)
             (List.filter (λ n, negb (is_blank n)) ["nop-B"; "  "; " nop-A "; ""]) insts
     ∧ convert_names_to_chars ["nop-B"; "  "; " nop-A "; ""] st_two
       = (st_two, Ok (concat_strings (char <$> insts))))
  ∧ convert_names_to_chars ["nop-B"; "  "; " nop-A "; ""] st_two
    = convert_names_to_chars
        (List.filter (λ n, negb (is_blank n)) ["nop-B"; "  "; " nop-A "; ""]) st_two.
Proof.
  apply (convert_names_to_chars_skips_blanks st_two ["nop-B"; "  "; " nop-A "; ""]).
  repeat constructor; unfold accepted_entry, known_name; vm_compute;
    intros; first [discriminate | eauto].
Defined.

Lemma chars_loop_all_known σ cs out :
  Forall (known_char σ) cs →
  ∃ out', for_ cs out chars_to_names_step σ = (σ, Ok out').
Proof.
  intros Hcs.
  destruct (Forall_lookup_records (char_map (self σ)) (λ c, c) cs Hcs) as [insts Hi].
  eexists. by apply chars_loop_known.
Qed.

Lemma names_loop_all_accepted σ l out :
  Forall (accepted_entry σ) l →
  ∃ out', for_ l out names_to_chars_step σ = (σ, Ok out').
Proof.
  intros Hl. revert out. induction Hl as [|n l Hn _ IH]; intros out; simpl.
  - by eexists.
  - destruct (is_blank n) eqn:Hb.
    + erewrite bind_ok by (by apply names_to_chars_step_blank). apply IH.
    + destruct (Hn Hb) as [i Hi].
      erewrite bind_ok by (by apply names_to_chars_step_known). apply IH.
Qed.

(** C4.  A conversion whose input holds a token that is not in the mapping
    returns no string: it stops at the first such token, writes the error
    report naming that token, and ends by raising [SystemExit]; e.g. abx on
    the two-row table, where x is absent, reports the unknown symbol x. *)
Theorem unknown_token_fails_without_output :
  (∀ σ s,
     ¬ Forall (known_char σ) (Py.chars s) →
     ∃ pre c post,
       Py.chars s = pre ++ c :: post ∧ Forall (known_char σ) pre ∧ ¬ known_char σ c
       ∧ convert_chars_to_names s σ
         = (printed (error_report ("Unknown symbol: " +:+ c)) σ, Raise (SystemExit None)))
  ∧ (∀ σ name_list,
       ¬ Forall (accepted_entry σ) name_list →
       ∃ pre n post,
         name_list = pre ++ n :: post ∧ Forall (accepted_entry σ) pre
         ∧ is_blank n = false ∧ ¬ known_name σ (Py.strip n)
         ∧ convert_names_to_chars name_list σ
           = (printed (error_report ("Unknown name: " +:+ Py.strip n)) σ,
              Raise (SystemExit None)))
  ∧ convert_chars_to_names "abx" st_two
    = (printed (error_report "Unknown symbol: x") st_two, Raise (SystemExit None)).
Proof.
  split; [|split].
  - intros σ s Hs.
    destruct (first_failure _ _ Hs) as (pre & c & post & Heq & Hpre & Hc).
    exists pre, c, post. repeat split; try done.
    unfold convert_chars_to_names. rewrite Heq.
    destruct (chars_loop_all_known σ pre EmptyString Hpre) as [out Hout].
    eapply for_raise; [exact Hout|].
    apply chars_to_names_step_unknown.
    unfold known_char in Hc. by apply eq_None_not_Some.
  - intros σ l Hl.
    destruct (first_failure _ _ Hl) as (pre & n & post & Heq & Hpre & Hn).
    assert (is_blank n = false ∧ ¬ known_name σ (Py.strip n)) as [Hb Hk].
    { unfold accepted_entry in Hn. destruct (is_blank n); [|split; [done|]].
      - destruct Hn. intros; discriminate.
      - intros Hk. apply Hn. by intros _. }
    exists pre, n, post. repeat split; try done.
    unfold convert_names_to_chars. rewrite Heq.
    destruct (names_loop_all_accepted σ pre EmptyString Hpre) as [out Hout].
    eapply for_raise; [exact Hout|].
    apply names_to_chars_step_unknown; [done|].
    unfold known_name in Hk. by apply eq_None_not_Some.
  - unfold convert_chars_to_names.
    change (Py.chars "abx") with (["a"; "b"] ++ "x" :: []).
    destruct (chars_loop_all_known st_two ["a"; "b"] EmptyString) as [out Hout].
    { repeat constructor; unfold known_char; [rewrite st_two_char_a | rewrite st_two_char_b]; eauto. }
    eapply for_raise; [exact Hout|].
    apply chars_to_names_step_unknown, st_two_char_x.
Qed.

Lemma unknown_token_fails_without_output_witness :
  (∃ pre c post,
     Py.chars "bxa" = pre ++ c :: post ∧ Forall (known_char st_two) pre
     ∧ ¬ known_char st_two c
     ∧ convert_chars_to_names "bxa" st_two
       = (printed (error_report ("Unknown symbol: " +:+ c)) st_two,
          Raise (SystemExit None)))
  ∧ (∃ pre n post,
       ["nop-A"; " zz "; "nop-B"] = pre ++ n :: post
       ∧ Forall (accepted_entry st_two) pre
       ∧ is_blank n = false ∧ ¬ known_name st_two (Py.strip n)
       ∧ convert_names_to_chars ["nop-A"; " zz "; "nop-B"] st_two
         = (printed (error_report ("Unknown name: " +:+ Py.strip n)) st_two,
            Raise (SystemExit None))).
Proof.
  split.
  - apply (proj1 unknown_token_fails_without_output st_two "bxa").
    intros H. apply Forall_cons in H as [_ H]. apply Forall_cons in H as [H _].
    unfold known_char in H. rewrite st_two_char_x in H. by destruct H.
  - apply (proj1 (proj2 unknown_token_fails_without_output) st_two
             ["nop-A"; " zz "; "nop-B"]).
    intros H. apply Forall_cons in H as [_ H]. apply Forall_cons in H as [H _].
    unfold accepted_entry, known_name in H.
    destruct H as [? H]; [reflexivity|]. vm_compute in H. discriminate H.
Defined.

(** ** Writing a file *)

(** C10.  [write_to_file] on the empty string raises [IndexError] and leaves
    the files (and everything else) as they were; on a string with a last
    character it stores the string, with a newline added unless that last
    character is one. *)
Theorem write_to_file_empty_string filename σ :
  write_to_file filename EmptyString σ = (σ, Raise IndexError)
  ∧ (∀ s a,
       Py.last_char s = Some a →
       write_to_file filename s σ
       = (file_stored filename (if Ascii.eqb a "010" then s else s +:+ newline) σ, Ok tt)).
Proof.
  split.
  - reflexivity.
  - intros s a Hs. unfold write_to_file. munfold. rewrite Hs. reflexivity.
Qed.

Lemma write_to_file_empty_string_witness :
  write_to_file "out.org" "ab" (state0 [])
  = (file_stored "out.org" ("ab" +:+ newline) (state0 []), Ok tt).
Proof.
  apply (proj2 (write_to_file_empty_string "out.org" (state0 [])) "ab" "b"%char).
  reflexivity.
Defined.

(** ** Tokens *)

Lemma all_chars_snoc p cur a :
  Py.all_chars p (Py.snoc cur a) = Py.all_chars p cur && p a.
Proof.
  unfold Py.snoc. induction cur as [|b cur IH].
  - rewrite string_app_nil_l. simpl. by rewrite andb_true_r.
  - rewrite string_app_cons. simpl. rewrite IH. by rewrite andb_assoc.
Qed.

Lemma snoc_not_empty cur a : Py.snoc cur a ≠ EmptyString.
Proof. unfold Py.snoc. destruct cur; [rewrite string_app_nil_l | rewrite string_app_cons]; done. Qed.

Lemma split_ws_from_tokens cur s :
  no_space cur → Forall is_token (Py.split_ws_from cur s).
Proof.
  revert cur. induction s as [|a s IH]; intros cur Hcur; simpl.
  - destruct cur; constructor; [|constructor]. by split.
  - destruct (Py.isspace a) eqn:Ha.
    + destruct cur.
      * by apply IH.
      * constructor; [by split | by apply IH].
    + apply IH. unfold no_space in *. rewrite all_chars_snoc, Hcur, Ha. done.
Qed.

Lemma line_tokens_are_tokens line : Forall is_token (line_tokens line).
Proof. apply split_ws_from_tokens. reflexivity. Qed.

Lemma rstrip_no_space s : no_space s → Py.rstrip s = s.
Proof.
  unfold no_space. induction s as [|a s IH]; simpl; [done|].
  intros [Ha Hs]%andb_true_iff. rewrite (IH Hs).
  destruct s; [|done]. by apply negb_true_iff in Ha as ->.
Qed.

Lemma strip_no_space s : no_space s → Py.strip s = s.
Proof.
  intros Hs. unfold Py.strip.
  assert (Py.lstrip s = s) as ->; [|by apply rstrip_no_space].
  destruct s as [|a s]; [done|]. simpl.
  unfold no_space in Hs. simpl in Hs. apply andb_true_iff in Hs as [Ha _].
  by apply negb_true_iff in Ha as ->.
Qed.

Lemma strip_token t : is_token t → Py.strip t = t.
Proof. intros [_ Ht]. by apply strip_no_space. Qed.

Lemma token_not_blank t : is_token t → is_blank t = false.
Proof.
  intros Ht. unfold is_blank. rewrite (strip_token t Ht).
  destruct Ht as [Hne _]. by destruct t.
Qed.

(** ** The loader, step by step *)

Lemma read_whole_file_run filename text σ :
  files σ !! filename = Some text → read_whole_file filename σ = (σ, Ok text).
Proof. intros H. unfold read_whole_file. munfold. by rewrite H. Qed.

Lemma read_whole_file_missing filename σ :
  files σ !! filename = None →
  read_whole_file filename σ = (σ, Raise (FileNotFoundError filename)).
Proof. intros H. unfold read_whole_file. munfold. by rewrite H. Qed.

Lemma print_run args σ :
  print args σ = (printed (join_space args +:+ newline) σ, Ok tt).
Proof. reflexivity. Qed.

Lemma printed_all_nil σ : printed_all [] σ = σ.
Proof. destruct σ. unfold printed_all. simpl. by rewrite app_nil_r. Qed.

Lemma printed_printed_all m ms σ :
  printed m (printed_all ms σ) = printed_all (ms ++ [m]) σ.
Proof. unfold printed, printed_all. simpl. by rewrite app_assoc. Qed.

Lemma printed_all_app ms1 ms2 σ :
  printed_all ms2 (printed_all ms1 σ) = printed_all (ms1 ++ ms2) σ.
Proof. unfold printed_all. simpl. by rewrite app_assoc. Qed.

Lemma printed_as_all m σ : printed m σ = printed_all [m] σ.
Proof. reflexivity. Qed.

Lemma print_cols_run cols σ :
  print_cols cols σ = (printed_all (cols_report cols) σ, Ok tt).
Proof.
  unfold print_cols, print, printed_all, cols_report. munfold. simpl.
  by rewrite <- !app_assoc.
Qed.

Lemma load_line_ok cols line ti zi td zd c n σ :
  line_tokens line !! index_col_idx cols = Some ti → Py.int ti = Some zi →
  line_tokens line !! id_col_idx cols = Some td → Py.int td = Some zd →
  line_tokens line !! char_col_idx cols = Some c →
  line_tokens line !! name_col_idx cols = Some n →
  load_line cols line σ
  = (row_loaded (mkInstruction (next_oid σ) zi zd c n) σ, Ok tt).
Proof.
  intros Hi Hzi Hd Hzd Hc Hn.
  unfold load_line, getitem, int, new_Instruction, get_self, set_self, print.
  unfold line_tokens in *. munfold.
  rewrite Hi; cbv beta iota; rewrite Hzi; cbv beta iota.
  rewrite Hd; cbv beta iota; rewrite Hzd; cbv beta iota.
  rewrite Hc; cbv beta iota; rewrite Hn. reflexivity.
Qed.

Lemma load_line_bad_index cols line ti σ :
  line_tokens line !! index_col_idx cols = Some ti → Py.int ti = None →
  load_line cols line σ = (σ, Raise (ValueError_int ti)).
Proof.
  intros Hi Hzi. unfold load_line, getitem, int. unfold line_tokens in *. munfold.
  rewrite Hi; cbv beta iota; rewrite Hzi. reflexivity.
Qed.

Lemma load_line_bad_id cols line ti zi td σ :
  line_tokens line !! index_col_idx cols = Some ti → Py.int ti = Some zi →
  line_tokens line !! id_col_idx cols = Some td → Py.int td = None →
  load_line cols line σ = (σ, Raise (ValueError_int td)).
Proof.
  intros Hi Hzi Hd Hzd. unfold load_line, getitem, int. unfold line_tokens in *.
  munfold. rewrite Hi; cbv beta iota; rewrite Hzi; cbv beta iota.
  rewrite Hd; cbv beta iota; rewrite Hzd. reflexivity.
Qed.

Lemma load_rows_cons cols line rows σ :
  load_rows cols (line :: rows) σ = (load_line cols line;; load_rows cols rows) σ.
Proof.
  unfold load_rows. simpl. munfold.
  by destruct (load_line cols line σ) as [σ' [[]|e]].
Qed.

Lemma load_rows_app cols rows1 rows2 σ :
  load_rows cols (rows1 ++ rows2) σ = (load_rows cols rows1;; load_rows cols rows2) σ.
Proof.
  unfold load_rows. rewrite for_app. munfold.
  by destruct (for_ rows1 () _ σ) as [σ' [[]|e]].
Qed.

Lemma read_header_headerless text line1 rows first more σ :
  Py.lines text = line1 :: rows →
  line_tokens line1 = first :: more →
  Py.isdigit (Py.remove_char "," first) = true →
  read_header text σ
  = (printed_all
       (("No header detected. Using default column indices:" +:+ newline)
        :: cols_report default_cols) σ,
     Ok (default_cols, line1 :: rows)).
Proof.
  intros Hlines Htok Hdigit. unfold read_header.
  rewrite Hlines. simpl hd. fold (line_tokens line1). rewrite Htok.
  unfold getitem. simpl lookup. munfold. rewrite Hdigit.
  rewrite print_run, print_cols_run. rewrite printed_as_all, printed_all_app.
  reflexivity.
Qed.

(** The first line of a headerless file ends up in the table. *)
Example headerless_first_row_loaded :
  let σ := fst (GenomeManipulator_init (Some "inst_set.txt")
                  (state0 [("inst_set.txt", no_header_file)])) in
  index_map (self σ) !! 3 = Some (mkInstruction 0 3 7 "c" "nop-C")
  ∧ char_map (self σ) !! "a" = Some (mkInstruction 1 0 0 "a" "nop-A").
Proof. vm_compute. split; reflexivity. Qed.

(** ** The header *)

Lemma header_warnings_cons p rest :
  header_warnings (p :: rest) = header_warnings [p] ++ header_warnings rest.
Proof. unfold header_warnings. simpl. by destruct (is_column_name p). Qed.

Lemma header_step_run cols i tok σ :
  is_token tok →
  header_step cols i tok σ
  = (printed_all (header_warnings [tok]) σ,
     Ok (mkCols (if decide (tok = "index") then i else index_col_idx cols)
                (if decide (tok = "id") then i else id_col_idx cols)
                (if decide (tok = "char") then i else char_col_idx cols)
                (if decide (tok = "name") then i else name_col_idx cols))).
Proof.
  intros Htok. unfold header_step. rewrite (strip_token tok Htok).
  unfold header_warnings, is_column_name. simpl.
  destruct (decide (tok = "index")) as [->|H1].
  { by rewrite printed_all_nil. }
  destruct (decide (tok = "id")) as [->|H2].
  { by rewrite printed_all_nil. }
  destruct (decide (tok = "char")) as [->|H3].
  { by rewrite printed_all_nil. }
  destruct (decide (tok = "name")) as [->|H4].
  { by rewrite printed_all_nil. }
  rewrite bool_decide_eq_false_2 by (intros [?|[?|[?|?]]]; done).
  destruct cols. reflexivity.
Qed.

Lemma header_loop_run line_parts i cols σ :
  Forall is_token line_parts →
  header_loop i line_parts cols σ
  = (printed_all (header_warnings line_parts) σ,
     Ok (mkCols (last_pos "index" i line_parts (index_col_idx cols))
                (last_pos "id" i line_parts (id_col_idx cols))
                (last_pos "char" i line_parts (char_col_idx cols))
                (last_pos "name" i line_parts (name_col_idx cols)))).
Proof.
  intros Htoks. revert i cols σ.
  induction Htoks as [|p rest Hp _ IH]; intros i cols σ; simpl.
  - rewrite printed_all_nil. by destruct cols.
  - erewrite bind_ok by (by apply header_step_run).
    rewrite IH. simpl. rewrite printed_all_app, <- header_warnings_cons. reflexivity.
Qed.

Lemma last_pos_absent t i line_parts d :
  (∀ j, line_parts !! j ≠ Some t) → last_pos t i line_parts d = d.
Proof.
  revert i d. induction line_parts as [|p rest IH]; intros i d Habs; simpl; [done|].
  rewrite IH.
  - destruct (decide (p = t)) as [->|]; [|done]. by destruct (Habs 0%nat).
  - intros j. apply (Habs (S j)).
Qed.

Lemma last_pos_found t i line_parts d j :
  line_parts !! j = Some t →
  (∀ j', (j < j')%nat → line_parts !! j' ≠ Some t) →
  last_pos t i line_parts d = (i + j)%nat.
Proof.
  revert i d j. induction line_parts as [|p rest IH]; intros i d j Hj Hlast; [done|].
  simpl. destruct j as [|j].
  - simpl in Hj. injection Hj as ->. rewrite last_pos_absent.
    + rewrite decide_True by done. lia.
    + intros j. apply (Hlast (S j)). lia.
  - rewrite (IH _ _ j); [lia | done |].
    intros j' Hj'. apply (Hlast (S j')). lia.
Qed.

Lemma last_pos_only t line_parts d k :
  (∀ j, line_parts !! j = Some t ↔ j = k) → last_pos t 0 line_parts d = k.
Proof.
  intros Hk. rewrite (last_pos_found t 0 line_parts d k).
  - done.
  - by apply Hk.
  - intros j' Hlt Hj'. apply Hk in Hj'. lia.
Qed.

Lemma read_header_with_header text header rows first more σ :
  Py.lines text = header :: rows →
  line_tokens header = first :: more →
  Py.isdigit (Py.remove_char "," first) = false →
  let cols := mkCols (last_pos "index" 0 (first :: more) 0)
                     (last_pos "id" 0 (first :: more) 1)
                     (last_pos "char" 0 (first :: more) 2)
                     (last_pos "name" 0 (first :: more) 3) in
  read_header text σ
  = (printed_all
       (header_warnings (first :: more)
        ++ ("After parsing header, column indices are as follows:" +:+ newline)
           :: cols_report cols) σ,
     Ok (cols, rows)).
Proof.
  intros Hlines Htok Hdigit cols. unfold read_header.
  rewrite Hlines. simpl hd. simpl tl. fold (line_tokens header). rewrite Htok.
  unfold getitem. simpl lookup. munfold. rewrite Hdigit.
  rewrite header_loop_run by (rewrite <- Htok; apply line_tokens_are_tokens).
  rewrite print_run, print_cols_run.
  rewrite printed_as_all, !printed_all_app. reflexivity.
Qed.

(** C6, as stated, fails: in the header [id,name,char,index] the commas are
    deleted, which leaves the single unknown token idnamecharindex, and the
    default columns stay in force.  The row [5 6 a 7] is therefore not stored
    with id 5, name 6 and index 7 as the header declares, but with index 5,
    id 6 and name 7. *)
Lemma comma_only_header_is_not_read :
  let r := read_instruction_set_file "inst_set.txt"
             (state0 [("inst_set.txt", reordered_file)]) in
  snd r = Ok tt
  ∧ stdout (fst r) !! 0%nat
    = Some ("Found unknown column: idnamecharindex" +:+ newline)
  ∧ char_map (self (fst r)) !! "a" = Some (mkInstruction 0 5 6 "a" "7")
  ∧ ¬ (∃ i, char_map (self (fst r)) !! "a" = Some i
            ∧ id i = 5 ∧ name i = "6" ∧ index i = 7).
Proof.
  vm_compute. repeat split; try reflexivity.
  intros (i & Hi & Hid & _). injection Hi as <-. discriminate Hid.
Qed.

(** C6, amended.  When the first line is a header (its first token is not
    numeric) whose tokens -- what is left between whitespace once the commas
    are deleted -- name index, id, char and name at the positions [ki], [kd],
    [kc], [kn] and nowhere else, the loader prints one warning for each
    other token, does not fail, and runs the data loop on the following
    lines with these four positions; and the data loop stores a row whose
    fields at those positions are [ti], [td], [c], [n] as the record with
    index [int ti], id [int td], char [c] and name [n]. *)
Theorem header_columns_by_declared_position
    filename text header rows first more ki kd kc kn σ :
  files σ !! filename = Some text →
  Py.lines text = header :: rows →
  line_tokens header = first :: more →
  Py.isdigit (Py.remove_char "," first) = false →
  (∀ j, (first :: more) !! j = Some "index" ↔ j = ki) →
  (∀ j, (first :: more) !! j = Some "id" ↔ j = kd) →
  (∀ j, (first :: more) !! j = Some "char" ↔ j = kc) →
  (∀ j, (first :: more) !! j = Some "name" ↔ j = kn) →
  let cols := mkCols ki kd kc kn in
  read_instruction_set_file filename σ
  = load_rows cols rows
      (printed_all
         (header_warnings (first :: more)
          ++ ("After parsing header, column indices are as follows:" +:+ newline)
             :: cols_report cols) σ)
  ∧ (∀ line ti zi td zd c n σ',
       line_tokens line !! ki = Some ti → Py.int ti = Some zi →
       line_tokens line !! kd = Some td → Py.int td = Some zd →
       line_tokens line !! kc = Some c →
       line_tokens line !! kn = Some n →
       load_line cols line σ'
       = (row_loaded (mkInstruction (next_oid σ') zi zd c n) σ', Ok tt)).
Proof.
  intros Hfile Hlines Htok Hdigit Hi Hd Hc Hn cols. split.
  - unfold read_instruction_set_file, open_for_reading.
    erewrite bind_ok by (by apply read_whole_file_run).
    erewrite bind_ok by (by eapply read_header_with_header).
    rewrite (last_pos_only "index" _ _ ki), (last_pos_only "id" _ _ kd),
      (last_pos_only "char" _ _ kc), (last_pos_only "name" _ _ kn) by done.
    reflexivity.
  - intros line ti zi td zd c n σ' H1 H2 H3 H4 H5 H6.
    by apply (load_line_ok cols line ti zi td zd c n).
Qed.

Ltac only_position :=
  let j := fresh "j" in
  let H := fresh "H" in
  intros j; split;
  [ intros H; do 6 (destruct j as [|j]; [first [reflexivity | discriminate H]|]);
    discriminate H
  | intros ->; reflexivity ].

Lemma header_columns_by_declared_position_witness :
  let σ := state0 [("inst_set.txt", spaced_header_file)] in
  let cols := mkCols 4 0 2 1 in
  read_instruction_set_file "inst_set.txt" σ
  = load_rows cols ["5, nop-A, a, zzz, 7" +:+ newline]
      (printed_all
         (header_warnings ["id"; "name"; "char"; "extra"; "index"]
          ++ ("After parsing header, column indices are as follows:" +:+ newline)
             :: cols_report cols) σ)
  ∧ (∀ line ti zi td zd c n σ',
       line_tokens line !! 4%nat = Some ti → Py.int ti = Some zi →
       line_tokens line !! 0%nat = Some td → Py.int td = Some zd →
       line_tokens line !! 2%nat = Some c →
       line_tokens line !! 1%nat = Some n →
       load_line cols line σ'
       = (row_loaded (mkInstruction (next_oid σ') zi zd c n) σ', Ok tt)).
Proof.
  apply (header_columns_by_declared_position
           "inst_set.txt" spaced_header_file
           ("id, name, char, extra, index" +:+ newline)
           ["5, nop-A, a, zzz, 7" +:+ newline]
           "id" ["name"; "char"; "extra"; "index"]
           4 0 2 1 (state0 [("inst_set.txt", spaced_header_file)]));
    first [reflexivity | only_position].
Defined.

(** With blanks after the commas the same header is honoured. *)
Example spaced_header_row_loaded :
  let r := read_instruction_set_file "inst_set.txt"
             (state0 [("inst_set.txt", spaced_header_file)]) in
  snd r = Ok tt
  ∧ stdout (fst r) !! 0%nat = Some ("Found unknown column: extra" +:+ newline)
  ∧ char_map (self (fst r)) !! "a" = Some (mkInstruction 0 7 5 "a" "nop-A").
Proof. vm_compute. repeat split; reflexivity. Qed.

(** ** Malformed rows *)

(** C9.  A data line whose index field, or else whose id field, is not an
    integer literal makes the data loop raise the [ValueError] of [int] on
    that field, and with it the whole load, once the lines before it were
    loaded; whereas the char and name fields, whatever they are, are stored
    as they stand. *)
Theorem non_numeric_index_or_id_is_a_parse_error cols line ti td σ :
  line_tokens line !! index_col_idx cols = Some ti →
  line_tokens line !! id_col_idx cols = Some td →
  (Py.int ti = None ∨ Py.int td = None →
   let bad := match Py.int ti with None => ti | Some _ => td end in
   load_line cols line σ = (σ, Raise (ValueError_int bad))
   ∧ (∀ filename text pre post σ0 σh,
        files σ0 !! filename = Some text →
        read_header text σ0 = (σh, Ok (cols, pre ++ line :: post)) →
        load_rows cols pre σh = (σ, Ok tt) →
        read_instruction_set_file filename σ0 = (σ, Raise (ValueError_int bad))))
  ∧ (∀ zi zd c n,
       Py.int ti = Some zi → Py.int td = Some zd →
       line_tokens line !! char_col_idx cols = Some c →
       line_tokens line !! name_col_idx cols = Some n →
       load_line cols line σ
       = (row_loaded (mkInstruction (next_oid σ) zi zd c n) σ, Ok tt)).
Proof.
  intros Hi Hd. split.
  - intros Hbad bad.
    assert (load_line cols line σ = (σ, Raise (ValueError_int bad))) as Hline.
    { subst bad. destruct (Py.int ti) as [zi|] eqn:Hzi.
      - destruct Hbad as [?|Hzd]; [done|]. by eapply load_line_bad_id.
      - by apply load_line_bad_index. }
    split; [done|].
    intros filename text pre post σ0 σh Hfile Hhead Hpre.
    unfold read_instruction_set_file, open_for_reading.
    erewrite bind_ok by (by apply read_whole_file_run).
    erewrite bind_ok by exact Hhead. simpl.
    rewrite load_rows_app. erewrite bind_ok by exact Hpre.
    rewrite load_rows_cons. by erewrite bind_raise.
  - intros zi zd c n Hzi Hzd Hc Hn. by eapply load_line_ok.
Qed.

Lemma non_numeric_index_or_id_is_a_parse_error_witness :
  load_line default_cols "0 x7 a nop-A" (state0 [])
  = (state0 [], Raise (ValueError_int "x7")).
Proof.
  apply (proj1 (non_numeric_index_or_id_is_a_parse_error
                  default_cols "0 x7 a nop-A" "0" "x7" (state0 [])
                  eq_refl eq_refl)).
  right. reflexivity.
Defined.

(** A whole file with a malformed second row: the first row is in the table
    when the load fails. *)
Example malformed_second_row :
  let r := read_instruction_set_file "inst_set.txt"
             (state0 [("inst_set.txt", "0 0 a nop-A
one 1 b nop-B
")]) in
  snd r = Raise (ValueError_int "one")
  ∧ char_map (self (fst r)) !! "a" = Some (mkInstruction 0 0 0 "a" "nop-A")
  ∧ char_map (self (fst r)) !! "b" = None.
Proof. vm_compute. repeat split; reflexivity. Qed.

(** ** The table invariant *)

Lemma table_inv_empty n : table_inv empty_manip n.
Proof.
  assert (∀ i, ¬ reachable empty_manip i) as Hnone.
  { intros i [[k H]|[[k H]|[[k H]|[k H]]]]; simpl in H; by rewrite lookup_empty in H. }
  split; try (intros k i H; simpl in H; by rewrite lookup_empty in H);
    try (intros i Hi; by destruct (Hnone i)).
  intros i j Hi. by destruct (Hnone i).
Qed.

Lemma stored_in_insert `{Countable K} (m : gmap K Instruction) k new i :
  stored_in (<[k := new]> m) i → i = new ∨ stored_in m i.
Proof.
  intros [k' Hk']. destruct (decide (k = k')) as [->|Hne].
  - rewrite lookup_insert_eq in Hk'. left. congruence.
  - rewrite lookup_insert_ne in Hk' by done. right. by exists k'.
Qed.

Lemma reachable_insert_inst new g i :
  reachable (insert_inst new g) i → i = new ∨ reachable g i.
Proof.
  unfold reachable, insert_inst. simpl.
  intros [H|[H|[H|H]]]; apply stored_in_insert in H as [->|H]; auto.
Qed.

Lemma holds_latest_insert `{Countable K} (m : gmap K Instruction)
    (key : Instruction → K) new n i :
  oid new = n →
  (i = new ∨ (holds_latest m key i ∧ (oid i < n)%nat)) →
  holds_latest (<[key new := new]> m) key i.
Proof.
  intros Hoid [->|[(j & Hj & Hle) Hlt]].
  - exists new. by rewrite lookup_insert_eq.
  - destruct (decide (key new = key i)) as [Heq|Hne].
    + exists new. rewrite Heq, lookup_insert_eq. split; [done|lia].
    + exists j. by rewrite lookup_insert_ne.
Qed.

Lemma key_insert `{Countable K} (m : gmap K Instruction) (key : Instruction → K) new :
  (∀ k i, m !! k = Some i → key i = k) →
  ∀ k i, <[key new := new]> m !! k = Some i → key i = k.
Proof.
  intros Hm k i Hk. destruct (decide (key new = k)) as [<-|Hne].
  - rewrite lookup_insert_eq in Hk. congruence.
  - rewrite lookup_insert_ne in Hk by done. by apply Hm.
Qed.

Lemma table_inv_insert g n new :
  table_inv g n → oid new = n → is_token (char new) → is_token (name new) →
  table_inv (insert_inst new g) (S n).
Proof.
  intros Hinv Hoid Hc Hn.
  assert (∀ i, reachable (insert_inst new g) i →
               i = new ∨ (reachable g i ∧ (oid i < n)%nat)) as Hreach.
  { intros i Hi. apply reachable_insert_inst in Hi as [->|Hi]; [by left|].
    right. split; [done|]. by apply (inv_oid_bound g n Hinv). }
  split; simpl.
  - apply key_insert, Hinv.
  - apply key_insert, Hinv.
  - apply key_insert, Hinv.
  - apply key_insert, Hinv.
  - intros i Hi. destruct (Hreach i Hi) as [->|[_ Hlt]]; lia.
  - intros i j Hi Hj Heq.
    destruct (Hreach i Hi) as [->|[Hi' Hlti]], (Hreach j Hj) as [->|[Hj' Hltj]];
      try done; try lia.
    by apply (inv_oid_inj g n Hinv).
  - intros i Hi. apply (holds_latest_insert _ index new n); [done|].
    destruct (Hreach i Hi) as [->|[Hi' Hlt]]; [by left|right].
    split; [by apply (inv_index_latest g n Hinv) | done].
  - intros i Hi. apply (holds_latest_insert _ id new n); [done|].
    destruct (Hreach i Hi) as [->|[Hi' Hlt]]; [by left|right].
    split; [by apply (inv_id_latest g n Hinv) | done].
  - intros i Hi. apply (holds_latest_insert _ char new n); [done|].
    destruct (Hreach i Hi) as [->|[Hi' Hlt]]; [by left|right].
    split; [by apply (inv_char_latest g n Hinv) | done].
  - intros i Hi. apply (holds_latest_insert _ name new n); [done|].
    destruct (Hreach i Hi) as [->|[Hi' Hlt]]; [by left|right].
    split; [by apply (inv_name_latest g n Hinv) | done].
  - intros i Hi. destruct (Hreach i Hi) as [->|[Hi' _]]; [done|].
    by apply (inv_tokens g n Hinv).
Qed.

Lemma load_line_cases cols line σ :
  (∃ e, load_line cols line σ = (σ, Raise e))
  ∨ (∃ inst,
       load_line cols line σ = (row_loaded inst σ, Ok tt)
       ∧ oid inst = next_oid σ ∧ is_token (char inst) ∧ is_token (name inst)).
Proof.
  pose proof (line_tokens_are_tokens line) as Htoks.
  destruct (line_tokens line !! index_col_idx cols) as [ti|] eqn:Hi.
  2:{ left. exists IndexError. unfold load_line, getitem. fold (line_tokens line).
      munfold. by rewrite Hi. }
  destruct (Py.int ti) as [zi|] eqn:Hzi.
  2:{ left. eexists. by apply load_line_bad_index. }
  destruct (line_tokens line !! id_col_idx cols) as [td|] eqn:Hd.
  2:{ left. exists IndexError. unfold load_line, getitem, int. fold (line_tokens line).
      munfold. rewrite Hi; cbv beta iota; rewrite Hzi; cbv beta iota. by rewrite Hd. }
  destruct (Py.int td) as [zd|] eqn:Hzd.
  2:{ left. eexists. by eapply load_line_bad_id. }
  destruct (line_tokens line !! char_col_idx cols) as [c|] eqn:Hc.
  2:{ left. exists IndexError. unfold load_line, getitem, int. fold (line_tokens line).
      munfold. rewrite Hi; cbv beta iota; rewrite Hzi; cbv beta iota.
      rewrite Hd; cbv beta iota; rewrite Hzd; cbv beta iota. by rewrite Hc. }
  destruct (line_tokens line !! name_col_idx cols) as [n|] eqn:Hn.
  2:{ left. exists IndexError. unfold load_line, getitem, int. fold (line_tokens line).
      munfold. rewrite Hi; cbv beta iota; rewrite Hzi; cbv beta iota.
      rewrite Hd; cbv beta iota; rewrite Hzd; cbv beta iota.
      rewrite Hc; cbv beta iota. by rewrite Hn. }
  right. exists (mkInstruction (next_oid σ) zi zd c n). split.
  - by apply (load_line_ok cols line ti zi td zd c n).
  - simpl. repeat split;
      first [ by apply (Forall_lookup_1 _ _ _ _ Htoks Hc)
            | by apply (Forall_lookup_1 _ _ _ _ Htoks Hn) ].
Qed.

Lemma load_line_inv cols line σ σ' r :
  table_inv (self σ) (next_oid σ) →
  load_line cols line σ = (σ', r) →
  table_inv (self σ') (next_oid σ') ∧ files σ' = files σ.
Proof.
  intros Hinv Hrun.
  destruct (load_line_cases cols line σ) as [[e He]|(inst & Hi & Hoid & Hc & Hn)].
  - rewrite He in Hrun. by injection Hrun as <- <-.
  - rewrite Hi in Hrun. injection Hrun as <- <-. simpl. split; [|done].
    by apply table_inv_insert.
Qed.

Lemma load_rows_inv cols rows σ σ' r :
  table_inv (self σ) (next_oid σ) →
  load_rows cols rows σ = (σ', r) →
  table_inv (self σ') (next_oid σ') ∧ files σ' = files σ.
Proof.
  revert σ. induction rows as [|line rows IH]; intros σ Hinv Hrun.
  - injection Hrun as <- <-. done.
  - rewrite load_rows_cons in Hrun. munfold.
    destruct (load_line cols line σ) as [σ1 [[]|e]] eqn:Hline.
    + destruct (load_line_inv _ _ _ _ _ Hinv Hline) as [Hinv1 Hf1].
      destruct (IH σ1 Hinv1 Hrun) as [Hinv' Hf']. split; [done|congruence].
    + injection Hrun as <- <-. by eapply load_line_inv.
Qed.

Lemma read_header_cases text σ :
  read_header text σ = (σ, Raise IndexError)
  ∨ ∃ msgs cols rows, read_header text σ = (printed_all msgs σ, Ok (cols, rows)).
Proof.
  destruct (Py.lines text) as [|line1 rows] eqn:Hlines.
  { left. unfold read_header. by rewrite Hlines. }
  destruct (line_tokens line1) as [|first more] eqn:Htok.
  { left. unfold read_header. rewrite Hlines. simpl hd. fold (line_tokens line1).
    by rewrite Htok. }
  right. destruct (Py.isdigit (Py.remove_char "," first)) eqn:Hdigit.
  - do 3 eexists. by eapply read_header_headerless.
  - do 3 eexists. by eapply read_header_with_header.
Qed.

Lemma read_instruction_set_file_inv filename σ σ' r :
  table_inv (self σ) (next_oid σ) →
  read_instruction_set_file filename σ = (σ', r) →
  table_inv (self σ') (next_oid σ') ∧ files σ' = files σ.
Proof.
  intros Hinv Hrun. unfold read_instruction_set_file, open_for_reading in Hrun.
  destruct (files σ !! filename) as [text|] eqn:Hfile.
  2:{ erewrite bind_raise in Hrun by (by apply read_whole_file_missing).
      by injection Hrun as <- <-. }
  erewrite bind_ok in Hrun by (by apply read_whole_file_run).
  destruct (read_header_cases text σ) as [Hh|(msgs & cols & rows & Hh)].
  - erewrite bind_raise in Hrun by exact Hh. by injection Hrun as <- <-.
  - erewrite bind_ok in Hrun by exact Hh. simpl in Hrun.
    by apply (load_rows_inv cols rows (printed_all msgs σ) σ' r).
Qed.

Lemma GenomeManipulator_init_inv _filename σ σ' r :
  GenomeManipulator_init _filename σ = (σ', r) →
  table_inv (self σ') (next_oid σ') ∧ files σ' = files σ.
Proof.
  unfold GenomeManipulator_init, set_self. munfold. destruct _filename as [f|].
  - intros Hrun. apply read_instruction_set_file_inv in Hrun; [done|].
    apply table_inv_empty.
  - intros Hrun. injection Hrun as <- <-. split; [apply table_inv_empty | done].
Qed.

(** The conversions leave the manipulator and the files alone. *)
Lemma chars_to_names_step_frame out c σ σ' r :
  chars_to_names_step out c σ = (σ', r) → self σ' = self σ ∧ files σ' = files σ.
Proof.
  destruct (char_map (self σ) !! c) as [i|] eqn:Hc.
  - rewrite (chars_to_names_step_known σ out c i Hc). by intros [= <- <-].
  - rewrite (chars_to_names_step_unknown σ out c Hc). by intros [= <- <-].
Qed.

Lemma names_to_chars_step_frame out n σ σ' r :
  names_to_chars_step out n σ = (σ', r) → self σ' = self σ ∧ files σ' = files σ.
Proof.
  destruct (is_blank n) eqn:Hb.
  - rewrite (names_to_chars_step_blank σ out n Hb). by intros [= <- <-].
  - destruct (name_map (self σ) !! Py.strip n) as [i|] eqn:Hn.
    + rewrite (names_to_chars_step_known σ out n i Hb Hn). by intros [= <- <-].
    + rewrite (names_to_chars_step_unknown σ out n Hb Hn). by intros [= <- <-].
Qed.

Lemma for_frame {A B} (body : B → A → M B) (l : list A) :
  (∀ acc x σ σ' r, body acc x σ = (σ', r) → self σ' = self σ ∧ files σ' = files σ) →
  ∀ acc σ σ' r, for_ l acc body σ = (σ', r) → self σ' = self σ ∧ files σ' = files σ.
Proof.
  intros Hbody. induction l as [|x l IH]; intros acc σ σ' r Hrun; simpl in Hrun.
  - by injection Hrun as <- <-.
  - munfold. destruct (body acc x σ) as [σ1 [acc1|e]] eqn:Hx.
    + destruct (Hbody _ _ _ _ _ Hx) as [Hs Hf].
      destruct (IH _ _ _ _ Hrun) as [Hs' Hf']. split; congruence.
    + injection Hrun as <- <-. by eapply Hbody.
Qed.

Lemma convert_chars_to_names_frame s σ σ' r :
  convert_chars_to_names s σ = (σ', r) → self σ' = self σ ∧ files σ' = files σ.
Proof. apply for_frame. apply chars_to_names_step_frame. Qed.

Lemma convert_names_to_chars_frame l σ σ' r :
  convert_names_to_chars l σ = (σ', r) → self σ' = self σ ∧ files σ' = files σ.
Proof. apply for_frame. apply names_to_chars_step_frame. Qed.

(** ** The loaded table *)

Lemma st_two_loaded :
  GenomeManipulator_init (Some "inst_set.txt") (state0 [("inst_set.txt", two_rows)])
  = (st_two, Ok tt).
Proof. vm_compute. reflexivity. Qed.

(** C7, as stated, fails: when two rows share a char, the record of the
    first row stays reachable (by its name, index and id) but is under no
    key of the char mapping. *)
Lemma shared_char_record_not_in_char_map :
  let r := GenomeManipulator_init (Some "inst_set.txt")
             (state0 [("inst_set.txt", shared_char_file)]) in
  snd r = Ok tt ∧ ¬ every_record_once (self (fst r)).
Proof.
  intros r. split; [vm_compute; reflexivity|].
  intros Hall.
  destruct (GenomeManipulator_init_inv
              (Some "inst_set.txt") (state0 [("inst_set.txt", shared_char_file)])
              (fst r) (snd r) (surjective_pairing r)) as [Hinv _].
  destruct (Hall (mkInstruction 0 0 0 "a" "nop-A")) as (_ & _ & (k & Hk & _) & _).
  { right; right; right. exists "nop-A". vm_compute. reflexivity. }
  pose proof (inv_char_key _ _ Hinv _ _ Hk) as Hkey. simpl in Hkey. subst k.
  vm_compute in Hk. discriminate Hk.
Qed.

Lemma every_record_once_when_unshared g n :
  table_inv g n → no_shared_attribute g → every_record_once g.
Proof.
  intros Hinv Huniq i Hi.
  assert (∀ `{Countable K} (m : gmap K Instruction) (key : Instruction → K),
            (∀ k j, m !! k = Some j → key j = k) →
            (∀ j, stored_in m j → reachable g j) →
            (∀ j, key i = key j → reachable g j → i = j) →
            holds_latest m key i → under_exactly_one_key m i) as Hone.
  { intros K ? ? m key Hkey Hsub Hsame (j & Hj & _).
    assert (i = j) as <-.
    { apply Hsame; [|apply Hsub; by eexists]. symmetry. by apply Hkey in Hj. }
    exists (key i). split; [done|]. intros k' Hk'. symmetry. by apply Hkey. }
  repeat split.
  - apply (Hone _ _ _ _ index); [apply Hinv | by left | | by apply Hinv].
    intros j Hij Hj. apply Huniq; auto.
  - apply (Hone _ _ _ _ id); [apply Hinv | by right; left | | by apply Hinv].
    intros j Hij Hj. apply Huniq; auto.
  - apply (Hone _ _ _ _ char); [apply Hinv | by right; right; left | | by apply Hinv].
    intros j Hij Hj. apply Huniq; auto.
  - apply (Hone _ _ _ _ name); [apply Hinv | by right; right; right | | by apply Hinv].
    intros j Hij Hj. apply Huniq; auto.
Qed.

(** C7, amended.  After [GenomeManipulator(filename)] has completed, every
    record reachable from one of the four mappings is found in each mapping
    under no other key than its own index, id, char and name, and each
    mapping holds at that key the record itself or one loaded later (the
    last row with a key wins); so when no two reachable records share an
    index, an id, a char or a name, every record is under exactly one key
    of each of the four mappings.  The two conversions never change the
    mappings. *)
Theorem loaded_table_records filename σ0 σ :
  GenomeManipulator_init (Some filename) σ0 = (σ, Ok tt) →
  (∀ i, reachable (self σ) i →
     (only_under_own_key (index_map (self σ)) index i
      ∧ only_under_own_key (id_map (self σ)) id i
      ∧ only_under_own_key (char_map (self σ)) char i
      ∧ only_under_own_key (name_map (self σ)) name i)
     ∧ (holds_latest (index_map (self σ)) index i
        ∧ holds_latest (id_map (self σ)) id i
        ∧ holds_latest (char_map (self σ)) char i
        ∧ holds_latest (name_map (self σ)) name i))
  ∧ (no_shared_attribute (self σ) → every_record_once (self σ))
  ∧ (∀ s σ' r, convert_chars_to_names s σ = (σ', r) → self σ' = self σ)
  ∧ (∀ name_list σ' r, convert_names_to_chars name_list σ = (σ', r) → self σ' = self σ).
Proof.
  intros Hload. destruct (GenomeManipulator_init_inv _ _ _ _ Hload) as [Hinv _].
  split; [|split; [|split]].
  - intros i Hi. split.
    + unfold only_under_own_key. split; [|split; [|split]]; intros k Hk; symmetry.
      * by apply (inv_index_key _ _ Hinv).
      * by apply (inv_id_key _ _ Hinv).
      * by apply (inv_char_key _ _ Hinv).
      * by apply (inv_name_key _ _ Hinv).
    + split; [|split; [|split]].
      * by apply (inv_index_latest _ _ Hinv).
      * by apply (inv_id_latest _ _ Hinv).
      * by apply (inv_char_latest _ _ Hinv).
      * by apply (inv_name_latest _ _ Hinv).
  - by apply (every_record_once_when_unshared _ _ Hinv).
  - intros s σ' r Hrun. by apply convert_chars_to_names_frame in Hrun as [? _].
  - intros l σ' r Hrun. by apply convert_names_to_chars_frame in Hrun as [? _].
Qed.

Lemma loaded_table_records_witness :
  (∀ i, reachable (self st_two) i →
     (only_under_own_key (index_map (self st_two)) index i
      ∧ only_under_own_key (id_map (self st_two)) id i
      ∧ only_under_own_key (char_map (self st_two)) char i
      ∧ only_under_own_key (name_map (self st_two)) name i)
     ∧ (holds_latest (index_map (self st_two)) index i
        ∧ holds_latest (id_map (self st_two)) id i
        ∧ holds_latest (char_map (self st_two)) char i
        ∧ holds_latest (name_map (self st_two)) name i))
  ∧ (no_shared_attribute (self st_two) → every_record_once (self st_two))
  ∧ (∀ s σ' r, convert_chars_to_names s st_two = (σ', r) → self σ' = self st_two)
  ∧ (∀ name_list σ' r,
       convert_names_to_chars name_list st_two = (σ', r) → self σ' = self st_two).
Proof.
  apply (loaded_table_records "inst_set.txt" (state0 [("inst_set.txt", two_rows)]) st_two).
  vm_compute. reflexivity.
Defined.

(** ** Splitting lines and the round trip *)

Lemma no_space_not_newline a s :
  no_space (String a s) → Ascii.eqb a "010" = false ∧ no_space s.
Proof.
  unfold no_space. simpl. intros [Ha Hs]%andb_true_iff. split; [|done].
  destruct (Ascii.eqb_spec a "010") as [->|]; [|done]. discriminate Ha.
Qed.

Lemma prefix_newline a s : String.prefix newline (String a s) = Ascii.eqb a "010".
Proof.
  change (String.prefix newline (String a s))
    with (match ascii_dec "010" a with
          | left _ => String.prefix EmptyString s
          | right _ => false
          end).
  destruct (ascii_dec "010" a) as [<-|Hne].
  - by destruct s.
  - symmetry. apply Ascii.eqb_neq. congruence.
Qed.

Lemma split_sep_from_cons sep cur a s :
  Py.split_sep_from sep 0 cur (String a s)
  = if String.prefix sep (String a s)
    then cur :: Py.split_sep_from sep (Nat.pred (String.length sep)) EmptyString s
    else Py.split_sep_from sep 0 (Py.snoc cur a) s.
Proof. reflexivity. Qed.

Lemma split_sep_newline_name n cur rest :
  no_space n →
  Py.split_sep_from newline 0 cur (n +:+ rest)
  = Py.split_sep_from newline 0 (cur +:+ n) rest.
Proof.
  revert cur. induction n as [|a n IH]; intros cur Hn.
  - by rewrite string_app_nil_l, string_app_nil_r.
  - apply no_space_not_newline in Hn as [Ha Hn].
    rewrite string_app_cons, split_sep_from_cons, prefix_newline, Ha.
    rewrite IH by done. unfold Py.snoc.
    by rewrite string_app_assoc, string_app_cons, string_app_nil_l.
Qed.

Lemma split_sep_newline_cut cur rest :
  Py.split_sep_from newline 0 cur (newline +:+ rest)
  = cur :: Py.split_sep_from newline 0 EmptyString rest.
Proof.
  unfold newline at 2. rewrite string_app_cons, string_app_nil_l.
  rewrite split_sep_from_cons, prefix_newline. reflexivity.
Qed.

Lemma split_name_lines names :
  Forall is_token names →
  Py.split_sep newline (name_lines names) = names ++ [EmptyString].
Proof.
  unfold Py.split_sep. induction 1 as [|n names [_ Hn] _ IH]; simpl; [done|].
  rewrite split_sep_newline_name by done.
  rewrite split_sep_newline_cut, string_app_nil_l. by rewrite IH.
Qed.

Lemma concat_chars s : concat_strings (Py.chars s) = s.
Proof.
  induction s as [|a s IH]; simpl; [done|].
  by rewrite string_app_cons, string_app_nil_l, IH.
Qed.

Lemma filter_tokens_then_empty names :
  Forall is_token names →
  List.filter (λ n, negb (is_blank n)) (names ++ [EmptyString]) = names.
Proof.
  induction 1 as [|n names Hn _ IH]; simpl; [done|].
  by rewrite (token_not_blank n Hn), IH.
Qed.

Lemma records_back σ cs insts :
  Forall2 (λ c i, char_map (self σ) !! c = Some i) cs insts →
  Forall is_token (name <$> insts) →
  (∀ c i, c ∈ cs → char_map (self σ) !! c = Some i →
          ∃ j, name_map (self σ) !! name i = Some j ∧ char j = c) →
  ∃ js, Forall2 (λ n j, name_map (self σ) !! Py.strip n = Some j) (name <$> insts) js
        ∧ char <$> js = cs.
Proof.
  induction 1 as [|c i cs insts Hc _ IH]; intros Htok Hback.
  - exists []. split; [constructor | done].
  - apply Forall_cons in Htok as [Hn Htok].
    destruct IH as (js & Hjs & Hchars); [done| |].
    { intros c' i' Hin. apply Hback. by right. }
    destruct (Hback c i) as (j & Hj & Hcj); [by left | done |].
    exists (j :: js). split.
    + constructor; [|done]. by rewrite strip_token.
    + by rewrite fmap_cons, Hcj, Hchars.
Qed.

(** C1, as stated, fails: when two rows give the same name to different
    chars, the name leads back to the char of the later row. *)
Lemma round_trip_shared_name :
  let r := GenomeManipulator_init (Some "inst_set.txt")
             (state0 [("inst_set.txt", shared_name_file)]) in
  snd r = Ok tt
  ∧ Forall (known_char (fst r)) (Py.chars "a")
  ∧ round_trip "a" (fst r) = (fst r, Ok "b").
Proof.
  vm_compute. split; [reflexivity|]. split; [|reflexivity].
  constructor; [eauto | constructor].
Qed.

(** C1, amended.  On the table built by [GenomeManipulator(filename)], for
    every [s] whose characters are keys of the char mapping and such that
    the name of each character's record leads back, in the name mapping, to
    a record with that character (as it does when no two records share a
    name), converting [s] to names, splitting at the newlines and
    converting back returns [s], and changes nothing. *)
Theorem round_trip_identity filename σ0 σ s :
  GenomeManipulator_init (Some filename) σ0 = (σ, Ok tt) →
  Forall (known_char σ) (Py.chars s) →
  (∀ c i, c ∈ Py.chars s → char_map (self σ) !! c = Some i →
          ∃ j, name_map (self σ) !! name i = Some j ∧ char j = c) →
  round_trip s σ = (σ, Ok s).
Proof.
  intros Hload Hknown Hback.
  destruct (GenomeManipulator_init_inv _ _ _ _ Hload) as [Hinv _].
  destruct (Forall_lookup_records (char_map (self σ)) (λ c, c) (Py.chars s) Hknown)
    as [insts Hi].
  assert (Forall is_token (name <$> insts)) as Htok.
  { apply Forall_fmap. apply (Forall2_Forall_r _ _ _ _ Hi).
    apply Forall_forall. intros c _ i Hc. simpl.
    apply (inv_tokens _ _ Hinv). right; right; left. by exists c. }
  destruct (records_back σ _ _ Hi Htok Hback) as (js & Hjs & Hchars).
  unfold round_trip.
  erewrite bind_ok
    by (unfold convert_chars_to_names; apply (chars_loop_known σ _ insts), Hi).
  rewrite string_app_nil_l. unfold str_split, newline at 1. simpl.
  erewrite bind_ok by reflexivity.
  rewrite (split_name_lines _ Htok).
  unfold convert_names_to_chars. rewrite (names_loop_known σ _ js).
  - by rewrite string_app_nil_l, Hchars, concat_chars.
  - by rewrite filter_tokens_then_empty.
Qed.

(** When no two reachable records share a name, every name leads back. *)
Lemma unshared_names_lead_back filename σ0 σ :
  GenomeManipulator_init (Some filename) σ0 = (σ, Ok tt) →
  (∀ i j, reachable (self σ) i → reachable (self σ) j → name i = name j → i = j) →
  ∀ c i, char_map (self σ) !! c = Some i →
         ∃ j, name_map (self σ) !! name i = Some j ∧ char j = c.
Proof.
  intros Hload Huniq c i Hc.
  destruct (GenomeManipulator_init_inv _ _ _ _ Hload) as [Hinv _].
  assert (reachable (self σ) i) as Hi by (right; right; left; by exists c).
  destruct (inv_name_latest _ _ Hinv i Hi) as (j & Hj & _).
  exists j. split; [done|].
  assert (i = j) as <-.
  { apply Huniq; [done | right; right; right; by eexists |].
    symmetry. by apply (inv_name_key _ _ Hinv) in Hj. }
  by apply (inv_char_key _ _ Hinv).
Qed.

Lemma round_trip_identity_witness : round_trip "abba" st_two = (st_two, Ok "abba").
Proof.
  apply (round_trip_identity "inst_set.txt" (state0 [("inst_set.txt", two_rows)])).
  - exact st_two_loaded.
  - repeat constructor; unfold known_char; vm_compute; eauto.
  - intros c i Hin Hc.
    assert (c = "a" ∨ c = "b") as [-> | ->].
    { clear Hc. simpl in Hin.
      repeat (apply elem_of_cons in Hin as [->|Hin]; [auto|]).
      exfalso. exact (proj1 (elem_of_nil c) Hin). }
    + rewrite st_two_char_a in Hc. injection Hc as <-.
      eexists. split; [vm_compute; reflexivity | reflexivity].
    + rewrite st_two_char_b in Hc. injection Hc as <-.
      eexists. split; [vm_compute; reflexivity | reflexivity].
Defined.

(** ** The script *)

Lemma convert_chars_to_names_stops σ s pre c post :
  Py.chars s = pre ++ c :: post → Forall (known_char σ) pre → ¬ known_char σ c →
  convert_chars_to_names s σ
  = (printed (error_report ("Unknown symbol: " +:+ c)) σ, Raise (SystemExit None)).
Proof.
  intros Heq Hpre Hc. unfold convert_chars_to_names. rewrite Heq.
  destruct (chars_loop_all_known σ pre EmptyString Hpre) as [out Hout].
  eapply for_raise; [exact Hout|].
  apply chars_to_names_step_unknown.
  unfold known_char in Hc. by apply eq_None_not_Some.
Qed.

Lemma convert_names_to_chars_stops σ name_list pre n post :
  name_list = pre ++ n :: post → Forall (accepted_entry σ) pre →
  ¬ accepted_entry σ n →
  convert_names_to_chars name_list σ
  = (printed (error_report ("Unknown name: " +:+ Py.strip n)) σ, Raise (SystemExit None)).
Proof.
  intros Heq Hpre Hn.
  assert (is_blank n = false ∧ ¬ known_name σ (Py.strip n)) as [Hb Hk].
  { unfold accepted_entry in Hn. destruct (is_blank n); [|split; [done|]].
    - destruct Hn. intros; discriminate.
    - intros Hk. apply Hn. by intros _. }
  unfold convert_names_to_chars. rewrite Heq.
  destruct (names_loop_all_accepted σ pre EmptyString Hpre) as [out Hout].
  eapply for_raise; [exact Hout|].
  apply names_to_chars_step_unknown; [done|].
  unfold known_name in Hk. by apply eq_None_not_Some.
Qed.

Lemma last_char_app s t : t ≠ EmptyString → Py.last_char (s +:+ t) = Py.last_char t.
Proof.
  intros Ht. induction s as [|a s IH]; [done|].
  rewrite string_app_cons. simpl. rewrite IH.
  destruct (s +:+ t) eqn:Hst; [|done].
  destruct s; [by rewrite string_app_nil_l in Hst | by rewrite string_app_cons in Hst].
Qed.

Lemma last_char_name_lines n names :
  Py.last_char (name_lines (n :: names)) = Some "010"%char.
Proof.
  revert n. induction names as [|m names IH]; intros n.
  - simpl. by rewrite string_app_nil_r, last_char_app.
  - change (name_lines (n :: m :: names))
      with (n +:+ newline +:+ name_lines (m :: names)).
    rewrite last_char_app.
    + rewrite last_char_app; [apply IH|].
      simpl. destruct m; [by rewrite string_app_nil_l | by rewrite string_app_cons].
    + unfold newline. by rewrite string_app_cons.
Qed.

Lemma write_to_file_run filename s a σ :
  Py.last_char s = Some a →
  write_to_file filename s σ
  = (file_stored filename (if Ascii.eqb a "010" then s else s +:+ newline) σ, Ok tt).
Proof. intros Hs. unfold write_to_file. munfold. by rewrite Hs. Qed.

Lemma write_to_file_run_newline filename s σ :
  Py.last_char s = Some "010"%char →
  write_to_file filename s σ = (file_stored filename s σ, Ok tt).
Proof. intros Hs. by rewrite (write_to_file_run filename s "010" σ Hs). Qed.

Lemma split_name_file_run filename text σ :
  files σ !! filename = Some text →
  split_name_file filename newline σ = (σ, Ok (Py.strip <$> Py.split_sep newline text)).
Proof.
  intros Hf. unfold split_name_file.
  erewrite bind_ok by (by apply read_whole_file_run). reflexivity.
Qed.

(** C8, as stated, fails: with a table that knows only a and b the script
    stops at the symbol c, reports it, and ends with exit status 0. *)
Lemma script_unknown_symbol_exit_status :
  let r := main (state0 script_files) in
  snd r = Raise (SystemExit None)
  ∧ last (stdout (fst r)) = Some (error_report "Unknown symbol: c")
  ∧ exit_status (snd r) = 0
  ∧ ¬ (exit_status (snd r) ≠ 0).
Proof.
  vm_compute. repeat split; try reflexivity. intros H. by apply H.
Qed.

(** C8, amended.  When the table has been loaded and a conversion of the
    script meets an unknown symbol (a letter of the alphabet that is not a
    char of the table) or an unknown name (a non-blank line of the organism
    file that is not a name of the table), the script writes the error
    report naming that token as its last output and ends there by raising
    [SystemExit] without an exit code; the exit status of the process is
    then 0. *)
Theorem main_reports_unknown_token_and_exits σ0 σ :
  GenomeManipulator_init (Some "inst_set.txt") σ0 = (σ, Ok tt) →
  (∀ pre c post,
     Py.chars alphabet = pre ++ c :: post →
     Forall (known_char σ) pre → ¬ known_char σ c →
     main σ0 = (printed (error_report ("Unknown symbol: " +:+ c)) σ,
                Raise (SystemExit None))
     ∧ exit_status (snd (main σ0)) = 0)
  ∧ (∀ text pre n post,
       Forall (known_char σ) (Py.chars alphabet) →
       files σ !! "ancestor_extended.org" = Some text →
       Py.strip <$> Py.split_sep newline text = pre ++ n :: post →
       Forall (accepted_entry σ) pre → ¬ accepted_entry σ n →
       ∃ σ2,
         main σ0 = (printed (error_report ("Unknown name: " +:+ Py.strip n)) σ2,
                    Raise (SystemExit None))
         ∧ exit_status (snd (main σ0)) = 0).
Proof.
  intros Hload. split.
  - intros pre c post Heq Hpre Hc.
    assert (main σ0 = (printed (error_report ("Unknown symbol: " +:+ c)) σ,
                       Raise (SystemExit None))) as Hmain.
    { unfold main. erewrite bind_ok by exact Hload.
      erewrite bind_raise; [reflexivity|].
      by apply (convert_chars_to_names_stops σ alphabet pre c post). }
    by rewrite Hmain.
  - intros text pre n post Hknown Hfile Hlist Hpre Hn.
    destruct (Forall_lookup_records (char_map (self σ)) (λ c, c) _ Hknown)
      as [insts Hi].
    destruct insts as [|i insts]; [by inversion Hi|].
    set (names := name_lines (name <$> i :: insts)).
    set (σ1 := printed (join_space [names] +:+ newline) σ).
    set (σ2 := file_stored "converted_symbol_list.org" names σ1).
    assert (∀ σ', self σ' = self σ →
                  convert_chars_to_names alphabet σ' = (σ', Ok names)) as Hconv.
    { intros σ' Hself. unfold convert_chars_to_names.
      rewrite (chars_loop_known σ' _ (i :: insts)) by (by rewrite Hself).
      by rewrite string_app_nil_l. }
    assert (main σ0 = (printed (error_report ("Unknown name: " +:+ Py.strip n)) σ2,
                       Raise (SystemExit None))) as Hmain.
    { unfold main. erewrite bind_ok by exact Hload.
      erewrite bind_ok by (by apply Hconv).
      erewrite bind_ok by apply print_run. fold σ1.
      erewrite bind_ok by (by apply Hconv).
      erewrite bind_ok
        by (apply write_to_file_run_newline, last_char_name_lines).
      fold σ2.
      erewrite bind_ok
        by (apply (split_name_file_run _ text); simpl;
            by rewrite lookup_insert_ne).
      erewrite bind_raise; [reflexivity|].
      by apply (convert_names_to_chars_stops σ2 _ pre n post). }
    exists σ2. by rewrite Hmain.
Qed.

Lemma main_reports_unknown_token_and_exits_witness :
  (main (state0 script_files)
   = (printed (error_report ("Unknown symbol: " +:+ "c")) st_script,
      Raise (SystemExit None))
   ∧ exit_status (snd (main (state0 script_files))) = 0)
  ∧ (∃ σ2,
       main (state0 script_files_unknown_name)
       = (printed (error_report ("Unknown name: " +:+ Py.strip "nop-?")) σ2,
          Raise (SystemExit None))
       ∧ exit_status (snd (main (state0 script_files_unknown_name))) = 0).
Proof.
  split.
  - eapply (proj1 (main_reports_unknown_token_and_exits (state0 script_files) st_script _)
              ["a"; "b"] "c").
    + reflexivity.
    + repeat constructor; unfold known_char; vm_compute; eauto.
    + unfold known_char. vm_compute. by intros [? ?].
  - eapply (proj2 (main_reports_unknown_token_and_exits
                     (state0 script_files_unknown_name) st_full _)
              _ ["nop-C"; "nop-A"; EmptyString] "nop-?" ["nop-B"; EmptyString]).
    + repeat constructor; unfold known_char; vm_compute; eauto.
    + vm_compute. reflexivity.
    + vm_compute. reflexivity.
    + repeat constructor; unfold accepted_entry, known_name; vm_compute;
        intros; first [discriminate | eauto].
    + unfold accepted_entry, known_name. vm_compute. intros H.
      destruct H as [? H]; [reflexivity | discriminate H].
  Unshelve. all: vm_compute; reflexivity.
Defined.

(** The script on a full table and an organism file with an unknown name:
    the first conversion is written, the second stops at the name. *)
Example script_unknown_name :
  let r := main (state0 script_files_unknown_name) in
  snd r = Raise (SystemExit None)
  ∧ last (stdout (fst r)) = Some (error_report "Unknown name: nop-?")
  ∧ is_Some (files (fst r) !! "converted_symbol_list.org")
  ∧ files (fst r) !! "converted_name_list.org" = None.
Proof. vm_compute. repeat split; eauto. Qed.

(** * Further properties of the module *)

(** ** Loading: failures *)

(** X20.  Building a manipulator from a file that does not exist raises
    [FileNotFoundError] for that name; the manipulator is left with four
    empty mappings and nothing is printed, written or allocated. *)
Theorem init_missing_file filename σ :
  files σ !! filename = None →
  GenomeManipulator_init (Some filename) σ
  = (mkState (files σ) (stdout σ) (next_oid σ) empty_manip,
     Raise (FileNotFoundError filename)).
Proof.
  intros Hf. unfold GenomeManipulator_init.
  erewrite bind_ok by reflexivity.
  unfold read_instruction_set_file, open_for_reading.
  erewrite bind_raise; [reflexivity|]. by apply read_whole_file_missing.
Qed.

Lemma init_missing_file_witness :
  GenomeManipulator_init (Some "inst_set.txt") (state0 [("other.txt", two_rows)])
  = (mkState (files (state0 [("other.txt", two_rows)])) [] 0 empty_manip,
     Raise (FileNotFoundError "inst_set.txt")).
Proof.
  apply (init_missing_file "inst_set.txt" (state0 [("other.txt", two_rows)])).
  vm_compute. reflexivity.
Defined.

(** X1.  When the first line of the file has no token -- the file is empty,
    or its first line holds only whitespace and commas -- the load raises
    [IndexError] at [line_parts[0]], before anything is printed or stored. *)
Theorem load_first_line_without_token filename text σ :
  files σ !! filename = Some text →
  line_tokens (hd EmptyString (Py.lines text)) = [] →
  read_instruction_set_file filename σ = (σ, Raise IndexError).
Proof.
  intros Hf Htok. unfold read_instruction_set_file, open_for_reading.
  erewrite bind_ok by (by apply read_whole_file_run).
  erewrite bind_raise; [reflexivity|].
  unfold read_header. fold (line_tokens (hd EmptyString (Py.lines text))).
  by rewrite Htok.
Qed.

Lemma load_first_line_without_token_witness :
  read_instruction_set_file "empty.txt"
    (state0 [("empty.txt", EmptyString); ("blank.txt", " , ,
0 0 a nop-A
")])
  = (state0 [("empty.txt", EmptyString); ("blank.txt", " , ,
0 0 a nop-A
")], Raise IndexError)
  ∧ read_instruction_set_file "blank.txt"
      (state0 [("empty.txt", EmptyString); ("blank.txt", " , ,
0 0 a nop-A
")])
    = (state0 [("empty.txt", EmptyString); ("blank.txt", " , ,
0 0 a nop-A
")], Raise IndexError).
Proof.
  split.
  - apply (load_first_line_without_token "empty.txt" EmptyString); reflexivity.
  - apply (load_first_line_without_token "blank.txt" " , ,
0 0 a nop-A
"); reflexivity.
Defined.

Lemma getitem_run l i x σ : l !! i = Some x → getitem l i σ = (σ, Ok x).
Proof. intros H. unfold getitem. munfold. by rewrite H. Qed.

Lemma getitem_out_of_range l i σ :
  (length l ≤ i)%nat → getitem l i σ = (σ, Raise IndexError).
Proof.
  intros H. unfold getitem. munfold. by rewrite (lookup_ge_None_2 l i H).
Qed.

Lemma int_run s z σ : Py.int s = Some z → int s σ = (σ, Ok z).
Proof. intros H. unfold int. munfold. by rewrite H. Qed.

(** What a completed pass of the loop body has done. *)
Lemma load_line_ok_inv cols line σ σ' :
  load_line cols line σ = (σ', Ok tt) →
  ∃ ti zi td zd c n,
    line_tokens line !! index_col_idx cols = Some ti ∧ Py.int ti = Some zi
    ∧ line_tokens line !! id_col_idx cols = Some td ∧ Py.int td = Some zd
    ∧ line_tokens line !! char_col_idx cols = Some c
    ∧ line_tokens line !! name_col_idx cols = Some n
    ∧ σ' = row_loaded (mkInstruction (next_oid σ) zi zd c n) σ.
Proof.
  intros Hrun. unfold load_line in Hrun. fold (line_tokens line) in Hrun.
  destruct (line_tokens line !! index_col_idx cols) as [ti|] eqn:Hi.
  2:{ erewrite bind_raise in Hrun; [discriminate Hrun|].
      unfold getitem. munfold. by rewrite Hi. }
  erewrite bind_ok in Hrun by (by apply getitem_run).
  destruct (Py.int ti) as [zi|] eqn:Hzi.
  2:{ erewrite bind_raise in Hrun; [discriminate Hrun|].
      unfold int. munfold. by rewrite Hzi. }
  erewrite bind_ok in Hrun by (by apply int_run).
  destruct (line_tokens line !! id_col_idx cols) as [td|] eqn:Hd.
  2:{ erewrite bind_raise in Hrun; [discriminate Hrun|].
      unfold getitem. munfold. by rewrite Hd. }
  erewrite bind_ok in Hrun by (by apply getitem_run).
  destruct (Py.int td) as [zd|] eqn:Hzd.
  2:{ erewrite bind_raise in Hrun; [discriminate Hrun|].
      unfold int. munfold. by rewrite Hzd. }
  erewrite bind_ok in Hrun by (by apply int_run).
  destruct (line_tokens line !! char_col_idx cols) as [c|] eqn:Hc.
  2:{ erewrite bind_raise in Hrun; [discriminate Hrun|].
      unfold getitem. munfold. by rewrite Hc. }
  erewrite bind_ok in Hrun by (by apply getitem_run).
  destruct (line_tokens line !! name_col_idx cols) as [n|] eqn:Hn.
  2:{ erewrite bind_raise in Hrun; [discriminate Hrun|].
      unfold getitem. munfold. by rewrite Hn. }
  erewrite bind_ok in Hrun by (by apply getitem_run).
  exists ti, zi, td, zd, c, n. repeat split; try done.
  injection Hrun as <-. reflexivity.
Qed.

(** What a failed pass of the loop body has done: nothing; and its
    exception is that of a missing field or of [int] on the index or id
    field. *)
Lemma load_line_raise_inv cols line σ σ' e :
  load_line cols line σ = (σ', Raise e) →
  σ' = σ
  ∧ (e = IndexError
     ∨ ∃ literal,
         e = ValueError_int literal ∧ Py.int literal = None
         ∧ (line_tokens line !! index_col_idx cols = Some literal
            ∨ line_tokens line !! id_col_idx cols = Some literal)).
Proof.
  intros Hrun.
  destruct (load_line_cases cols line σ) as [[e' He]|(inst & Hi & _)].
  2:{ rewrite Hi in Hrun. discriminate Hrun. }
  rewrite He in Hrun. injection Hrun as <- <-. split; [done|].
  unfold load_line in He. fold (line_tokens line) in He.
  destruct (line_tokens line !! index_col_idx cols) as [ti|] eqn:Hi.
  2:{ erewrite bind_raise in He by (unfold getitem; munfold; by rewrite Hi).
      injection He as <-. by left. }
  erewrite bind_ok in He by (by apply getitem_run).
  destruct (Py.int ti) as [zi|] eqn:Hzi.
  2:{ erewrite bind_raise in He by (unfold int; munfold; by rewrite Hzi).
      injection He as <-. right. exists ti. auto. }
  erewrite bind_ok in He by (by apply int_run).
  destruct (line_tokens line !! id_col_idx cols) as [td|] eqn:Hd.
  2:{ erewrite bind_raise in He by (unfold getitem; munfold; by rewrite Hd).
      injection He as <-. by left. }
  erewrite bind_ok in He by (by apply getitem_run).
  destruct (Py.int td) as [zd|] eqn:Hzd.
  2:{ erewrite bind_raise in He by (unfold int; munfold; by rewrite Hzd).
      injection He as <-. right. exists td. auto. }
  erewrite bind_ok in He by (by apply int_run).
  destruct (line_tokens line !! char_col_idx cols) as [c|] eqn:Hc.
  2:{ erewrite bind_raise in He by (unfold getitem; munfold; by rewrite Hc).
      injection He as <-. by left. }
  erewrite bind_ok in He by (by apply getitem_run).
  destruct (line_tokens line !! name_col_idx cols) as [n|] eqn:Hn.
  2:{ erewrite bind_raise in He by (unfold getitem; munfold; by rewrite Hn).
      injection He as <-. by left. }
  erewrite bind_ok in He by (by apply getitem_run).
  discriminate He.
Qed.

(** X2.  A data line that lacks one of the four fields (a blank line, for
    one) and whose index and id fields, where it has them, are integers,
    makes the load raise [IndexError]; the rows before it stay loaded. *)
Theorem load_row_with_missing_field cols pre line post σ σ1 :
  load_rows cols pre σ = (σ1, Ok tt) →
  (length (line_tokens line) ≤ index_col_idx cols
   ∨ length (line_tokens line) ≤ id_col_idx cols
   ∨ length (line_tokens line) ≤ char_col_idx cols
   ∨ length (line_tokens line) ≤ name_col_idx cols)%nat →
  (∀ t, line_tokens line !! index_col_idx cols = Some t → is_Some (Py.int t)) →
  (∀ t, line_tokens line !! id_col_idx cols = Some t → is_Some (Py.int t)) →
  load_rows cols (pre ++ line :: post) σ = (σ1, Raise IndexError).
Proof.
  intros Hpre Hshort Hindex Hid.
  rewrite load_rows_app. erewrite bind_ok by exact Hpre.
  rewrite load_rows_cons. erewrite bind_raise; [reflexivity|].
  destruct (load_line cols line σ1) as [σ2 [[]|e]] eqn:Hline.
  - apply load_line_ok_inv in Hline
      as (ti & zi & td & zd & c & n & Hi & _ & Hd & _ & Hc & Hn & _).
    apply lookup_lt_Some in Hi, Hd, Hc, Hn. lia.
  - apply load_line_raise_inv in Hline as [-> [->|(lit & -> & Hnone & [Hl|Hl])]].
    + done.
    + destruct (Hindex lit Hl) as [z Hz]. congruence.
    + destruct (Hid lit Hl) as [z Hz]. congruence.
Qed.

Lemma load_row_with_missing_field_witness :
  load_rows default_cols
    ([("0 0 a nop-A" +:+ newline)] ++ newline :: [("1 1 b nop-B" +:+ newline)])
    (state0 [])
  = (row_loaded (mkInstruction 0 0 0 "a" "nop-A") (state0 []), Raise IndexError).
Proof.
  apply (load_row_with_missing_field default_cols
           [("0 0 a nop-A" +:+ newline)] newline [("1 1 b nop-B" +:+ newline)]
           (state0 []) (row_loaded (mkInstruction 0 0 0 "a" "nop-A") (state0 []))).
  - vm_compute. reflexivity.
  - left. vm_compute. lia.
  - intros t Ht. vm_compute in Ht. discriminate Ht.
  - intros t Ht. vm_compute in Ht. discriminate Ht.
Defined.

(** A blank line in the middle of a table file. *)
Example blank_line_in_table :
  let r := GenomeManipulator_init (Some "inst_set.txt")
             (state0 [("inst_set.txt", blank_line_file)]) in
  snd r = Raise IndexError
  ∧ is_Some (char_map (self (fst r)) !! "a")
  ∧ char_map (self (fst r)) !! "b" = None.
Proof. vm_compute. repeat split; eauto. Qed.

(** ** Loading: what is stored *)

(** X3.  A data line that is loaded yields one new record, whose char and
    name are the tokens at the char and name columns and whose index and id
    are the integers read at the index and id columns; each of the four
    mappings returns that same record for its key, and is unchanged at
    every other key. *)
Theorem loaded_row_found_under_its_four_keys cols line σ σ' :
  load_line cols line σ = (σ', Ok tt) →
  ∃ inst ti td,
    oid inst = next_oid σ
    ∧ line_tokens line !! index_col_idx cols = Some ti ∧ Py.int ti = Some (index inst)
    ∧ line_tokens line !! id_col_idx cols = Some td ∧ Py.int td = Some (id inst)
    ∧ line_tokens line !! char_col_idx cols = Some (char inst)
    ∧ line_tokens line !! name_col_idx cols = Some (name inst)
    ∧ index_map (self σ') !! index inst = Some inst
    ∧ id_map (self σ') !! id inst = Some inst
    ∧ char_map (self σ') !! char inst = Some inst
    ∧ name_map (self σ') !! name inst = Some inst
    ∧ (∀ k, k ≠ index inst → index_map (self σ') !! k = index_map (self σ) !! k)
    ∧ (∀ k, k ≠ id inst → id_map (self σ') !! k = id_map (self σ) !! k)
    ∧ (∀ k, k ≠ char inst → char_map (self σ') !! k = char_map (self σ) !! k)
    ∧ (∀ k, k ≠ name inst → name_map (self σ') !! k = name_map (self σ) !! k).
Proof.
  intros Hrun.
  apply load_line_ok_inv in Hrun
    as (ti & zi & td & zd & c & n & Hi & Hzi & Hd & Hzd & Hc & Hn & ->).
  exists (mkInstruction (next_oid σ) zi zd c n), ti, td. simpl.
  repeat split; try done; try apply lookup_insert_eq;
    intros k Hk; by apply lookup_insert_ne.
Qed.

Lemma loaded_row_found_under_its_four_keys_witness :
  ∃ inst ti td,
    oid inst = next_oid st_two
    ∧ line_tokens "7, 9, b, nop-Z" !! index_col_idx default_cols = Some ti
    ∧ Py.int ti = Some (index inst)
    ∧ line_tokens "7, 9, b, nop-Z" !! id_col_idx default_cols = Some td
    ∧ Py.int td = Some (id inst)
    ∧ line_tokens "7, 9, b, nop-Z" !! char_col_idx default_cols = Some (char inst)
    ∧ line_tokens "7, 9, b, nop-Z" !! name_col_idx default_cols = Some (name inst)
    ∧ index_map (self (fst (load_line default_cols "7, 9, b, nop-Z" st_two)))
        !! index inst = Some inst
    ∧ id_map (self (fst (load_line default_cols "7, 9, b, nop-Z" st_two)))
        !! id inst = Some inst
    ∧ char_map (self (fst (load_line default_cols "7, 9, b, nop-Z" st_two)))
        !! char inst = Some inst
    ∧ name_map (self (fst (load_line default_cols "7, 9, b, nop-Z" st_two)))
        !! name inst = Some inst
    ∧ (∀ k, k ≠ index inst →
         index_map (self (fst (load_line default_cols "7, 9, b, nop-Z" st_two))) !! k
         = index_map (self st_two) !! k)
    ∧ (∀ k, k ≠ id inst →
         id_map (self (fst (load_line default_cols "7, 9, b, nop-Z" st_two))) !! k
         = id_map (self st_two) !! k)
    ∧ (∀ k, k ≠ char inst →
         char_map (self (fst (load_line default_cols "7, 9, b, nop-Z" st_two))) !! k
         = char_map (self st_two) !! k)
    ∧ (∀ k, k ≠ name inst →
         name_map (self (fst (load_line default_cols "7, 9, b, nop-Z" st_two))) !! k
         = name_map (self st_two) !! k).
Proof.
  apply (loaded_row_found_under_its_four_keys default_cols "7, 9, b, nop-Z" st_two).
  vm_compute. reflexivity.
Defined.

(** ** Loading: what is kept *)

Lemma grown_from_refl σ : grown_from σ σ.
Proof.
  repeat split; try done. exists []. by rewrite app_nil_r.
Qed.

Lemma grown_from_trans σ1 σ2 σ3 :
  grown_from σ1 σ2 → grown_from σ2 σ3 → grown_from σ1 σ3.
Proof.
  intros ((K1 & K2 & K3 & K4) & Hf & [m Hm] & Hn)
         ((L1 & L2 & L3 & L4) & Hf' & [m' Hm'] & Hn').
  repeat split; auto.
  - congruence.
  - exists (m ++ m'). by rewrite Hm', Hm, app_assoc.
  - lia.
Qed.

Lemma grown_from_printed_all msgs σ : grown_from σ (printed_all msgs σ).
Proof. repeat split; try done. by exists msgs. Qed.

Lemma insert_keeps_key `{Countable K} (m : gmap K Instruction) k0 v k :
  is_Some (m !! k) → is_Some (<[k0 := v]> m !! k).
Proof.
  intros Hk. destruct (decide (k0 = k)) as [<-|Hne].
  - rewrite lookup_insert_eq. by eexists.
  - by rewrite lookup_insert_ne.
Qed.

Lemma grown_from_row_loaded inst σ : grown_from σ (row_loaded inst σ).
Proof.
  split; [|split; [|split]]; simpl.
  - repeat split; intros k Hk; by apply insert_keeps_key.
  - done.
  - by eexists.
  - lia.
Qed.

Lemma load_line_grown cols line σ σ' r :
  load_line cols line σ = (σ', r) → grown_from σ σ'.
Proof.
  intros Hrun. destruct r as [[]|e].
  - apply load_line_ok_inv in Hrun as (? & ? & ? & ? & ? & ? & _ & _ & _ & _ & _ & _ & ->).
    apply grown_from_row_loaded.
  - apply load_line_raise_inv in Hrun as [-> _]. apply grown_from_refl.
Qed.

Lemma load_rows_grown cols rows σ σ' r :
  load_rows cols rows σ = (σ', r) → grown_from σ σ'.
Proof.
  revert σ. induction rows as [|line rows IH]; intros σ Hrun.
  - injection Hrun as <- <-. apply grown_from_refl.
  - rewrite load_rows_cons in Hrun. munfold.
    destruct (load_line cols line σ) as [σ1 [[]|e]] eqn:Hline.
    + eapply grown_from_trans; [by eapply load_line_grown | by apply IH].
    + injection Hrun as <- <-. by eapply load_line_grown.
Qed.

(** X4.  However it ends, [read_instruction_set_file] only adds: every key
    of the four mappings is still a key afterwards (a second load adds to
    the table, it does not start afresh), the files are the same, what was
    printed before is still there, and the allocation counter has not
    gone back. *)
Theorem load_only_adds filename σ σ' r :
  read_instruction_set_file filename σ = (σ', r) → grown_from σ σ'.
Proof.
  intros Hrun. unfold read_instruction_set_file, open_for_reading in Hrun.
  destruct (files σ !! filename) as [text|] eqn:Hfile.
  2:{ erewrite bind_raise in Hrun by (by apply read_whole_file_missing).
      injection Hrun as <- <-. apply grown_from_refl. }
  erewrite bind_ok in Hrun by (by apply read_whole_file_run).
  destruct (read_header_cases text σ) as [Hh|(msgs & cols & rows & Hh)].
  - erewrite bind_raise in Hrun by exact Hh. injection Hrun as <- <-.
    apply grown_from_refl.
  - erewrite bind_ok in Hrun by exact Hh. simpl in Hrun.
    eapply grown_from_trans; [apply grown_from_printed_all|].
    by eapply load_rows_grown.
Qed.

Lemma load_only_adds_witness :
  grown_from
    (fst (GenomeManipulator_init (Some "inst_set.txt") (state0 two_files)))
    (fst (read_instruction_set_file "more.txt"
            (fst (GenomeManipulator_init (Some "inst_set.txt") (state0 two_files))))).
Proof.
  eapply (load_only_adds "more.txt"). apply surjective_pairing.
Defined.

(** A second load onto a loaded table: the old keys stay, b is overwritten. *)
Example second_load_adds :
  let σ := fst (GenomeManipulator_init (Some "inst_set.txt") (state0 two_files)) in
  let r := read_instruction_set_file "more.txt" σ in
  snd r = Ok tt
  ∧ char_map (self (fst r)) !! "a" = Some (mkInstruction 0 0 0 "a" "nop-A")
  ∧ name_map (self (fst r)) !! "nop-B" = Some (mkInstruction 1 1 1 "b" "nop-B")
  ∧ char_map (self (fst r)) !! "b" = Some (mkInstruction 3 3 3 "b" "nop-B2")
  ∧ char_map (self (fst r)) !! "c" = Some (mkInstruction 2 2 2 "c" "nop-C").
Proof. vm_compute. repeat split; reflexivity. Qed.

Lemma load_rows_raise_kinds cols rows σ σ' e :
  load_rows cols rows σ = (σ', Raise e) →
  e = IndexError ∨ ∃ literal, e = ValueError_int literal ∧ Py.int literal = None.
Proof.
  revert σ. induction rows as [|line rows IH]; intros σ Hrun.
  - discriminate Hrun.
  - rewrite load_rows_cons in Hrun. munfold.
    destruct (load_line cols line σ) as [σ1 [[]|e1]] eqn:Hline.
    + by eapply IH.
    + injection Hrun as <- <-.
      apply load_line_raise_inv in Hline as [_ [->|(lit & -> & Hnone & _)]]; eauto.
Qed.

(** X5.  Once the table file has been opened and read as a text, a load
    can fail in two ways only: [IndexError] for a missing token, and the
    [ValueError] of [int] on a token it rejects.  It never ends with
    [SystemExit] or [KeyError], so a failed load left uncaught ends the
    process with exit status 1. *)
Theorem load_failure_kinds filename text σ σ' e :
  files σ !! filename = Some text →
  read_instruction_set_file filename σ = (σ', Raise e) →
  (e = IndexError ∨ ∃ literal, e = ValueError_int literal ∧ Py.int literal = None)
  ∧ exit_status (@Raise unit e) = 1.
Proof.
  intros Hfile Hrun.
  assert (e = IndexError ∨ ∃ literal, e = ValueError_int literal ∧ Py.int literal = None)
    as Hkind.
  { unfold read_instruction_set_file, open_for_reading in Hrun.
    erewrite bind_ok in Hrun by (by apply read_whole_file_run).
    destruct (read_header_cases text σ) as [Hh|(msgs & cols & rows & Hh)].
    - erewrite bind_raise in Hrun by exact Hh. injection Hrun as <- <-. by left.
    - erewrite bind_ok in Hrun by exact Hh. simpl in Hrun.
      by apply load_rows_raise_kinds in Hrun. }
  split; [done|].
  destruct Hkind as [->|(lit & -> & _)]; reflexivity.
Qed.

Lemma load_failure_kinds_witness :
  (ValueError_int "one" = IndexError
   ∨ ∃ literal, ValueError_int "one" = ValueError_int literal ∧ Py.int literal = None)
  ∧ exit_status (@Raise unit (ValueError_int "one")) = 1.
Proof.
  apply (load_failure_kinds "inst_set.txt" "0 0 a nop-A
one 1 b nop-B
"
           (state0 [("inst_set.txt", "0 0 a nop-A
one 1 b nop-B
")])
           (fst (read_instruction_set_file "inst_set.txt"
                   (state0 [("inst_set.txt", "0 0 a nop-A
one 1 b nop-B
")])))).
  - reflexivity.
  - vm_compute. reflexivity.
Defined.

Lemma load_rows_count cols rows σ σ' :
  load_rows cols rows σ = (σ', Ok tt) →
  next_oid σ' = (next_oid σ + length rows)%nat
  ∧ length (stdout σ') = (length (stdout σ) + length rows)%nat.
Proof.
  revert σ. induction rows as [|line rows IH]; intros σ Hrun.
  - injection Hrun as <-. simpl. lia.
  - rewrite load_rows_cons in Hrun. munfold.
    destruct (load_line cols line σ) as [σ1 [[]|e1]] eqn:Hline; [|discriminate Hrun].
    apply load_line_ok_inv in Hline as (? & ? & ? & ? & ? & ? & _ & _ & _ & _ & _ & _ & ->).
    destruct (IH _ Hrun) as [Hn Hs]. rewrite Hn, Hs. simpl.
    rewrite length_app. simpl. lia.
Qed.

(** X6.  A load that completes has created exactly one record for each
    line of the file, the first line excepted when it is taken as a header,
    that is, when its first token, commas removed, does not consist of
    digits only ([str.isdigit]). *)
Theorem load_one_record_per_line filename text σ σ' :
  files σ !! filename = Some text →
  read_instruction_set_file filename σ = (σ', Ok tt) →
  ∃ first more,
    line_tokens (hd EmptyString (Py.lines text)) = first :: more
    ∧ next_oid σ'
      = (next_oid σ
         + (if Py.isdigit (Py.remove_char "," first)
            then length (Py.lines text)
            else length (Py.lines text) - 1))%nat.
Proof.
  intros Hfile Hrun. unfold read_instruction_set_file, open_for_reading in Hrun.
  erewrite bind_ok in Hrun by (by apply read_whole_file_run).
  destruct (Py.lines text) as [|line1 rows] eqn:Hlines.
  { erewrite bind_raise in Hrun; [discriminate Hrun|].
    unfold read_header. by rewrite Hlines. }
  simpl hd. destruct (line_tokens line1) as [|first more] eqn:Htok.
  { erewrite bind_raise in Hrun; [discriminate Hrun|].
    unfold read_header. rewrite Hlines. simpl hd. fold (line_tokens line1).
    by rewrite Htok. }
  exists first, more. split; [done|].
  destruct (Py.isdigit (Py.remove_char "," first)) eqn:Hdigit.
  - erewrite bind_ok in Hrun by (by eapply read_header_headerless).
    simpl in Hrun. apply load_rows_count in Hrun as [-> _]. reflexivity.
  - erewrite bind_ok in Hrun by (by eapply read_header_with_header).
    simpl in Hrun. apply load_rows_count in Hrun as [-> _]. simpl. lia.
Qed.

Lemma load_one_record_per_line_witness :
  ∃ first more,
    line_tokens (hd EmptyString (Py.lines spaced_header_file)) = first :: more
    ∧ next_oid (fst (read_instruction_set_file "inst_set.txt"
                       (state0 [("inst_set.txt", spaced_header_file)])))
      = (0 + (if Py.isdigit (Py.remove_char "," first)
              then length (Py.lines spaced_header_file)
              else length (Py.lines spaced_header_file) - 1))%nat.
Proof.
  apply (load_one_record_per_line "inst_set.txt" spaced_header_file
           (state0 [("inst_set.txt", spaced_header_file)])).
  - reflexivity.
  - vm_compute. reflexivity.
Defined.

(** ** The conversions: when they succeed and how they fail *)

Lemma chars_loop_stops σ pre c post out :
  Forall (known_char σ) pre → ¬ known_char σ c →
  for_ (pre ++ c :: post) out chars_to_names_step σ
  = (printed (error_report ("Unknown symbol: " +:+ c)) σ, Raise (SystemExit None)).
Proof.
  intros Hpre Hc.
  destruct (chars_loop_all_known σ pre out Hpre) as [out' Hout].
  eapply for_raise; [exact Hout|].
  apply chars_to_names_step_unknown.
  unfold known_char in Hc. by apply eq_None_not_Some.
Qed.

Lemma names_loop_stops σ pre n post out :
  Forall (accepted_entry σ) pre → ¬ accepted_entry σ n →
  for_ (pre ++ n :: post) out names_to_chars_step σ
  = (printed (error_report ("Unknown name: " +:+ Py.strip n)) σ, Raise (SystemExit None)).
Proof.
  intros Hpre Hn.
  assert (is_blank n = false ∧ ¬ known_name σ (Py.strip n)) as [Hb Hk].
  { unfold accepted_entry in Hn. destruct (is_blank n); [|split; [done|]].
    - destruct Hn. intros; discriminate.
    - intros Hk. apply Hn. by intros _. }
  destruct (names_loop_all_accepted σ pre out Hpre) as [out' Hout].
  eapply for_raise; [exact Hout|].
  apply names_to_chars_step_unknown; [done|].
  unfold known_name in Hk. by apply eq_None_not_Some.
Qed.

(** X7.  [convert_chars_to_names] returns a string exactly when every
    character of its input is a key of the char mapping.  Otherwise its
    only way to fail is [SystemExit] without a code, after one error report
    naming a character of the input that is no key; in particular the
    lookup [self.char_map[c]] never raises [KeyError]. *)
Theorem convert_chars_to_names_outcomes σ s :
  ((∃ out, convert_chars_to_names s σ = (σ, Ok out))
   ↔ Forall (known_char σ) (Py.chars s))
  ∧ (∀ σ' e,
       convert_chars_to_names s σ = (σ', Raise e) →
       e = SystemExit None
       ∧ ∃ c, c ∈ Py.chars s ∧ ¬ known_char σ c
              ∧ σ' = printed (error_report ("Unknown symbol: " +:+ c)) σ).
Proof.
  unfold convert_chars_to_names.
  destruct (decide (Forall (known_char σ) (Py.chars s))) as [Hall|Hnot].
  - destruct (chars_loop_all_known σ _ EmptyString Hall) as [out Hout].
    split; [split; [done | by exists out]|].
    intros σ' e Hrun. rewrite Hout in Hrun. discriminate Hrun.
  - destruct (first_failure _ _ Hnot) as (pre & c & post & Heq & Hpre & Hc).
    pose proof (chars_loop_stops σ pre c post EmptyString Hpre Hc) as Hstop.
    rewrite <- Heq in Hstop. split.
    + split; [|done]. intros [out Hout]. rewrite Hstop in Hout. discriminate Hout.
    + intros σ' e Hrun. rewrite Hstop in Hrun. injection Hrun as <- <-.
      split; [done|]. exists c. split; [|done].
      rewrite Heq. apply elem_of_app. right. by left.
Qed.

Lemma convert_chars_to_names_outcomes_witness :
  (∃ out, convert_chars_to_names "abab" st_two = (st_two, Ok out))
  ∧ (SystemExit None = SystemExit None
     ∧ ∃ c, c ∈ Py.chars "abc" ∧ ¬ known_char st_two c
            ∧ printed (error_report "Unknown symbol: c") st_two
              = printed (error_report ("Unknown symbol: " +:+ c)) st_two).
Proof.
  split.
  - apply (proj1 (convert_chars_to_names_outcomes st_two "abab")).
    repeat constructor; unfold known_char; vm_compute; eauto.
  - apply (proj2 (convert_chars_to_names_outcomes st_two "abc")).
    unfold convert_chars_to_names.
    apply (chars_loop_stops st_two ["a"; "b"] "c" []).
    + repeat constructor; unfold known_char; vm_compute; eauto.
    + unfold known_char. vm_compute. by intros [? ?].
Defined.

(** X8.  [convert_names_to_chars] returns a string exactly when every entry
    of its input is blank or, once trimmed, a key of the name mapping.
    Otherwise its only way to fail is [SystemExit] without a code, after one
    error report naming a trimmed entry that is no key; the lookup
    [self.name_map[s]] never raises [KeyError]. *)
Theorem convert_names_to_chars_outcomes σ name_list :
  ((∃ out, convert_names_to_chars name_list σ = (σ, Ok out))
   ↔ Forall (accepted_entry σ) name_list)
  ∧ (∀ σ' e,
       convert_names_to_chars name_list σ = (σ', Raise e) →
       e = SystemExit None
       ∧ ∃ n, n ∈ name_list ∧ is_blank n = false ∧ ¬ known_name σ (Py.strip n)
              ∧ σ' = printed (error_report ("Unknown name: " +:+ Py.strip n)) σ).
Proof.
  unfold convert_names_to_chars.
  destruct (decide (Forall (accepted_entry σ) name_list)) as [Hall|Hnot].
  - destruct (names_loop_all_accepted σ _ EmptyString Hall) as [out Hout].
    split; [split; [done | by exists out]|].
    intros σ' e Hrun. rewrite Hout in Hrun. discriminate Hrun.
  - destruct (first_failure _ _ Hnot) as (pre & n & post & Heq & Hpre & Hn).
    pose proof (names_loop_stops σ pre n post EmptyString Hpre Hn) as Hstop.
    rewrite <- Heq in Hstop. split.
    + split; [|done]. intros [out Hout]. rewrite Hstop in Hout. discriminate Hout.
    + intros σ' e Hrun. rewrite Hstop in Hrun. injection Hrun as <- <-.
      split; [done|]. exists n.
      assert (is_blank n = false ∧ ¬ known_name σ (Py.strip n)) as [Hb Hk].
      { unfold accepted_entry in Hn. destruct (is_blank n); [|split; [done|]].
        - destruct Hn. intros; discriminate.
        - intros Hk. apply Hn. by intros _. }
      repeat split; try done.
      rewrite Heq. apply elem_of_app. right. by left.
Qed.

Lemma convert_names_to_chars_outcomes_witness :
  ∃ out, convert_names_to_chars ["nop-B"; EmptyString; " nop-A"] st_two = (st_two, Ok out).
Proof.
  apply (proj1 (convert_names_to_chars_outcomes st_two ["nop-B"; EmptyString; " nop-A"])).
  repeat constructor; unfold accepted_entry, known_name; vm_compute;
    intros; first [discriminate | eauto].
Defined.

(** ** The conversions: concatenation *)

Lemma chars_loop_ok_inv σ cs out0 σ' out :
  for_ cs out0 chars_to_names_step σ = (σ', Ok out) →
  σ' = σ
  ∧ ∃ insts, Forall2 (λ c i, char_map (self σ) !! c = Some i) cs insts
             ∧ out = out0 +:+ name_lines (name <$> insts).
Proof.
  intros Hrun.
  destruct (decide (Forall (known_char σ) cs)) as [Hall|Hnot].
  - destruct (Forall_lookup_records (char_map (self σ)) (λ c, c) cs Hall) as [insts Hi].
    rewrite (chars_loop_known σ cs insts out0 Hi) in Hrun.
    injection Hrun as <- <-. split; [done|]. by exists insts.
  - destruct (first_failure _ _ Hnot) as (pre & c & post & -> & Hpre & Hc).
    rewrite (chars_loop_stops σ pre c post out0 Hpre Hc) in Hrun. discriminate Hrun.
Qed.

Lemma names_loop_ok_inv σ l out0 σ' out :
  for_ l out0 names_to_chars_step σ = (σ', Ok out) →
  σ' = σ
  ∧ ∃ insts, Forall2 (λ n i, name_map (self σ) !! Py.strip n = Some i)
                     (List.filter (λ n, negb (is_blank n)) l) insts
             ∧ out = out0 +:+ concat_strings (char <$> insts).
Proof.
  intros Hrun.
  destruct (decide (Forall (accepted_entry σ) l)) as [Hall|Hnot].
  - assert (Forall (λ n, is_Some (name_map (self σ) !! Py.strip n))
              (List.filter (λ n, negb (is_blank n)) l)) as Hf.
    { apply List.Forall_forall. intros n Hn. apply List.filter_In in Hn as [Hin Hnb].
      rewrite List.Forall_forall in Hall. apply Hall; [done|].
      by destruct (is_blank n). }
    destruct (Forall_lookup_records _ Py.strip _ Hf) as [insts Hi].
    rewrite (names_loop_known σ l insts out0 Hi) in Hrun.
    injection Hrun as <- <-. split; [done|]. by exists insts.
  - destruct (first_failure _ _ Hnot) as (pre & n & post & -> & Hpre & Hn).
    rewrite (names_loop_stops σ pre n post out0 Hpre Hn) in Hrun. discriminate Hrun.
Qed.

Lemma chars_app s1 s2 : Py.chars (s1 +:+ s2) = Py.chars s1 ++ Py.chars s2.
Proof.
  induction s1 as [|a s1 IH]; [done|].
  rewrite string_app_cons. simpl. by rewrite IH.
Qed.

Lemma name_lines_app l1 l2 : name_lines (l1 ++ l2) = name_lines l1 +:+ name_lines l2.
Proof.
  induction l1 as [|n l1 IH]; simpl; [done|].
  by rewrite IH, !string_app_assoc.
Qed.

Lemma concat_strings_app l1 l2 :
  concat_strings (l1 ++ l2) = concat_strings l1 +:+ concat_strings l2.
Proof.
  induction l1 as [|n l1 IH]; simpl; [done|].
  by rewrite IH, !string_app_assoc.
Qed.

(** X9.  Converting a concatenation of two symbol strings that both
    convert gives the concatenation of their conversions, and leaves the
    state as it was. *)
Theorem convert_chars_to_names_app σ s1 s2 σ1 σ2 out1 out2 :
  convert_chars_to_names s1 σ = (σ1, Ok out1) →
  convert_chars_to_names s2 σ = (σ2, Ok out2) →
  convert_chars_to_names (s1 +:+ s2) σ = (σ, Ok (out1 +:+ out2)).
Proof.
  unfold convert_chars_to_names. intros H1 H2.
  apply chars_loop_ok_inv in H1 as (_ & insts1 & Hi1 & ->).
  apply chars_loop_ok_inv in H2 as (_ & insts2 & Hi2 & ->).
  rewrite chars_app.
  rewrite (chars_loop_known σ _ (insts1 ++ insts2)) by (by apply Forall2_app).
  by rewrite fmap_app, name_lines_app, !string_app_nil_l.
Qed.

Lemma convert_chars_to_names_app_witness :
  convert_chars_to_names ("ab" +:+ "ba") st_two
  = (st_two, Ok (name_lines ["nop-A"; "nop-B"] +:+ name_lines ["nop-B"; "nop-A"])).
Proof.
  apply (convert_chars_to_names_app st_two "ab" "ba" st_two st_two);
    vm_compute; reflexivity.
Defined.

(** X10.  Likewise for name lists: converting the concatenation of two
    lists that both convert gives the concatenation of the two symbol
    strings. *)
Theorem convert_names_to_chars_app σ l1 l2 σ1 σ2 out1 out2 :
  convert_names_to_chars l1 σ = (σ1, Ok out1) →
  convert_names_to_chars l2 σ = (σ2, Ok out2) →
  convert_names_to_chars (l1 ++ l2) σ = (σ, Ok (out1 +:+ out2)).
Proof.
  unfold convert_names_to_chars. intros H1 H2.
  apply names_loop_ok_inv in H1 as (_ & insts1 & Hi1 & ->).
  apply names_loop_ok_inv in H2 as (_ & insts2 & Hi2 & ->).
  rewrite (names_loop_known σ _ (insts1 ++ insts2)).
  - by rewrite fmap_app, concat_strings_app, !string_app_nil_l.
  - rewrite List.filter_app. by apply Forall2_app.
Qed.

Lemma convert_names_to_chars_app_witness :
  convert_names_to_chars (["nop-A"; " "] ++ ["nop-B"; "nop-A "]) st_two
  = (st_two, Ok ("a" +:+ "ba")).
Proof.
  apply (convert_names_to_chars_app st_two ["nop-A"; " "] ["nop-B"; "nop-A "]
           st_two st_two);
    vm_compute; reflexivity.
Defined.

(** ** The file helpers *)

Lemma all_chars_app p s t :
  Py.all_chars p (s +:+ t) = Py.all_chars p s && Py.all_chars p t.
Proof.
  induction s as [|a s IH]; [done|].
  rewrite string_app_cons. simpl. by rewrite IH, andb_assoc.
Qed.

Lemma last_char_snoc_newline s : Py.last_char (s +:+ newline) = Some "010"%char.
Proof. by rewrite last_char_app. Qed.

(** X11.  After [write_to_file] has stored a non-empty string without
    carriage returns, reading the file back gives the string with a final
    newline (added only if it was missing); the other files, the table and
    the output are untouched; and writing back what was read leaves the file
    as it is, so no second newline is ever added. *)
Theorem write_then_read filename s a σ :
  no_carriage_return s →
  Py.last_char s = Some a →
  ∃ σ' text,
    write_to_file filename s σ = (σ', Ok tt)
    ∧ read_whole_file filename σ' = (σ', Ok text)
    ∧ text = (if Ascii.eqb a "010" then s else s +:+ newline)
    ∧ no_carriage_return text
    ∧ Py.last_char text = Some "010"%char
    ∧ (∀ other, other ≠ filename → files σ' !! other = files σ !! other)
    ∧ self σ' = self σ ∧ stdout σ' = stdout σ
    ∧ write_to_file filename text σ' = (σ', Ok tt).
Proof.
  intros Hcr Hs.
  set (text := if Ascii.eqb a "010" then s else s +:+ newline).
  assert (Py.last_char text = Some "010"%char) as Hlast.
  { subst text. destruct (Ascii.eqb_spec a "010") as [->|_]; [done|].
    apply last_char_snoc_newline. }
  assert (no_carriage_return text) as Hcr'.
  { subst text. destruct (Ascii.eqb a "010"); [done|].
    unfold no_carriage_return in *. by rewrite all_chars_app, Hcr. }
  exists (file_stored filename text σ), text.
  split; [by apply write_to_file_run|].
  split; [apply read_whole_file_run; simpl; apply lookup_insert_eq|].
  split; [done|]. split; [done|]. split; [done|].
  split; [intros other Hne; simpl; by apply lookup_insert_ne|].
  split; [done|]. split; [done|].
  rewrite (write_to_file_run_newline filename text _ Hlast).
  unfold file_stored. simpl. by rewrite insert_insert_eq.
Qed.

Lemma write_then_read_witness :
  ∃ σ' text,
    write_to_file "out.org" "ab" st_two = (σ', Ok tt)
    ∧ read_whole_file "out.org" σ' = (σ', Ok text)
    ∧ text = (if Ascii.eqb "b" "010" then "ab" else "ab" +:+ newline)
    ∧ no_carriage_return text
    ∧ Py.last_char text = Some "010"%char
    ∧ (∀ other, other ≠ "out.org" → files σ' !! other = files st_two !! other)
    ∧ self σ' = self st_two ∧ stdout σ' = stdout st_two
    ∧ write_to_file "out.org" text σ' = (σ', Ok tt).
Proof.
  apply (write_then_read "out.org" "ab" "b" st_two); reflexivity.
Defined.

Lemma lstrip_head s :
  Py.lstrip s = EmptyString
  ∨ ∃ a s', Py.lstrip s = String a s' ∧ Py.isspace a = false.
Proof.
  induction s as [|a s IH]; simpl; [by left|].
  destruct (Py.isspace a) eqn:Ha; [done|]. right. by exists a, s.
Qed.

Lemma rstrip_idem s : Py.rstrip (Py.rstrip s) = Py.rstrip s.
Proof.
  induction s as [|a s IH]; simpl; [done|].
  destruct (Py.rstrip s) as [|b r] eqn:Hr.
  - destruct (Py.isspace a) eqn:Ha; simpl; [done|]. by rewrite Ha.
  - change (Py.rstrip (String a (String b r)))
      with (match Py.rstrip (String b r) with
            | EmptyString => if Py.isspace a then EmptyString else String a EmptyString
            | r' => String a r'
            end).
    by rewrite IH.
Qed.

Lemma rstrip_keeps_head a s :
  Py.isspace a = false → ∃ r, Py.rstrip (String a s) = String a r.
Proof.
  intros Ha. simpl. destruct (Py.rstrip s); rewrite ?Ha; by eexists.
Qed.

Lemma strip_idem s : Py.strip (Py.strip s) = Py.strip s.
Proof.
  unfold Py.strip.
  destruct (lstrip_head s) as [->|(a & s' & -> & Ha)]; [done|].
  destruct (rstrip_keeps_head a s' Ha) as [r Hr]. rewrite Hr.
  assert (Py.lstrip (String a r) = String a r) as -> by (simpl; by rewrite Ha).
  by rewrite <- Hr, rstrip_idem.
Qed.

Lemma split_sep_from_not_nil sep skip cur s : Py.split_sep_from sep skip cur s ≠ [].
Proof.
  revert skip cur. induction s as [|a s IH]; intros skip cur; [done|].
  destruct skip as [|k].
  - rewrite split_sep_from_cons.
    destruct (String.prefix sep (String a s)); [done | apply IH].
  - change (Py.split_sep_from sep (S k) cur (String a s))
      with (Py.split_sep_from sep k cur s). apply IH.
Qed.

(** X12.  [split_name_file] changes nothing; it fails with
    [FileNotFoundError] when the file is missing and otherwise, for a
    non-empty delimiter, returns at least one entry, each of them trimmed:
    trimming an entry again gives the entry, so an entry is blank exactly
    when it is the empty string. *)
Theorem split_name_file_entries filename delim σ :
  (files σ !! filename = None →
   split_name_file filename delim σ = (σ, Raise (FileNotFoundError filename)))
  ∧ (∀ text,
       files σ !! filename = Some text → delim ≠ EmptyString →
       ∃ L, split_name_file filename delim σ = (σ, Ok L)
            ∧ L ≠ []
            ∧ Forall (λ n, Py.strip n = n) L
            ∧ Forall (λ n, is_blank n = true ↔ n = EmptyString) L).
Proof.
  split.
  - intros Hf. unfold split_name_file.
    erewrite bind_raise; [reflexivity | by apply read_whole_file_missing].
  - intros text Hf Hd. exists (Py.strip <$> Py.split_sep delim text).
    split; [|split; [|split]].
    + unfold split_name_file. erewrite bind_ok by (by apply read_whole_file_run).
      unfold str_split. by destruct delim.
    + intros Hnil. apply fmap_nil_inv in Hnil. by apply split_sep_from_not_nil in Hnil.
    + apply Forall_fmap, Forall_forall. intros n _. simpl. apply strip_idem.
    + apply Forall_fmap, Forall_forall. intros n _. simpl.
      unfold is_blank. rewrite strip_idem. split.
      * intros H. by destruct (Py.strip n).
      * by intros ->.
Qed.

Lemma split_name_file_entries_witness :
  ∃ L, split_name_file "ancestor_extended.org" newline
         (state0 [("ancestor_extended.org", "  nop-A
	
nop-B  ")])
       = (state0 [("ancestor_extended.org", "  nop-A
	
nop-B  ")], Ok L)
       ∧ L ≠ []
       ∧ Forall (λ n, Py.strip n = n) L
       ∧ Forall (λ n, is_blank n = true ↔ n = EmptyString) L.
Proof.
  apply (proj2 (split_name_file_entries "ancestor_extended.org" newline
                  (state0 [("ancestor_extended.org", "  nop-A
	
nop-B  ")])) "  nop-A
	
nop-B  ").
  - reflexivity.
  - discriminate.
Defined.

(** ** Round trips *)

Lemma fmap_strip_tokens names :
  Forall is_token names →
  Py.strip <$> (names ++ [EmptyString]) = names ++ [EmptyString].
Proof.
  induction 1 as [|n names Hn _ IH]; [done|].
  rewrite <- app_comm_cons, fmap_cons, IH. by rewrite (strip_token n Hn).
Qed.

(** X13.  On a loaded table, writing the names of a non-empty symbol string
    to a file with [write_to_file], reading the file back with
    [split_name_file] and converting the entries gives the symbol string
    again, provided every name leads back to its character; the file then
    holds the names, one per line.  For the empty symbol string the same
    steps end with [IndexError], raised by [write_to_file]. *)
Theorem file_round_trip_identity filename org σ0 σ s :
  GenomeManipulator_init (Some filename) σ0 = (σ, Ok tt) →
  s ≠ EmptyString →
  Forall (known_char σ) (Py.chars s) →
  (∀ c i, c ∈ Py.chars s → char_map (self σ) !! c = Some i →
          ∃ j, name_map (self σ) !! name i = Some j ∧ char j = c) →
  (∃ names,
     convert_chars_to_names s σ = (σ, Ok names)
     ∧ file_round_trip org s σ = (file_stored org names σ, Ok s))
  ∧ file_round_trip org EmptyString σ = (σ, Raise IndexError).
Proof.
  intros Hload Hne Hknown Hback. split; [|reflexivity].
  destruct (GenomeManipulator_init_inv _ _ _ _ Hload) as [Hinv _].
  destruct (Forall_lookup_records (char_map (self σ)) (λ c, c) (Py.chars s) Hknown)
    as [insts Hi].
  assert (Forall is_token (name <$> insts)) as Htok.
  { apply Forall_fmap. apply (Forall2_Forall_r _ _ _ _ Hi).
    apply Forall_forall. intros c _ i Hc. simpl.
    apply (inv_tokens _ _ Hinv). right; right; left. by exists c. }
  destruct (records_back σ _ _ Hi Htok Hback) as (js & Hjs & Hchars).
  assert (convert_chars_to_names s σ = (σ, Ok (name_lines (name <$> insts)))) as Hconv.
  { unfold convert_chars_to_names. rewrite (chars_loop_known σ _ insts) by done.
    by rewrite string_app_nil_l. }
  exists (name_lines (name <$> insts)). split; [done|].
  unfold file_round_trip. erewrite bind_ok by exact Hconv.
  destruct insts as [|i insts].
  { inversion Hi as [Hnil|]. by destruct s. }
  erewrite bind_ok by (apply write_to_file_run_newline, last_char_name_lines).
  erewrite bind_ok
    by (apply (split_name_file_run _ (name_lines (name <$> i :: insts)));
        simpl; apply lookup_insert_eq).
  rewrite (split_name_lines _ Htok), (fmap_strip_tokens _ Htok).
  unfold convert_names_to_chars.
  rewrite (names_loop_known (file_stored org _ σ) _ js).
  - by rewrite string_app_nil_l, Hchars, concat_chars.
  - by rewrite filter_tokens_then_empty.
Qed.

Lemma file_round_trip_identity_witness :
  (∃ names,
     convert_chars_to_names "bab" st_two = (st_two, Ok names)
     ∧ file_round_trip "tmp.org" "bab" st_two = (file_stored "tmp.org" names st_two, Ok "bab"))
  ∧ file_round_trip "tmp.org" EmptyString st_two = (st_two, Raise IndexError).
Proof.
  apply (file_round_trip_identity "inst_set.txt" "tmp.org"
           (state0 [("inst_set.txt", two_rows)]) st_two "bab").
  - exact st_two_loaded.
  - discriminate.
  - repeat constructor; unfold known_char; vm_compute; eauto.
  - intros c i Hin Hc.
    assert (c = "a" ∨ c = "b") as [-> | ->].
    { clear Hc. simpl in Hin.
      repeat (apply elem_of_cons in Hin as [->|Hin]; [auto|]).
      exfalso. exact (proj1 (elem_of_nil c) Hin). }
    + rewrite st_two_char_a in Hc. injection Hc as <-.
      eexists. split; [vm_compute; reflexivity | reflexivity].
    + rewrite st_two_char_b in Hc. injection Hc as <-.
      eexists. split; [vm_compute; reflexivity | reflexivity].
Defined.

Lemma chars_concat_one_char cs :
  Forall one_char cs → Py.chars (concat_strings cs) = cs.
Proof.
  induction 1 as [|c cs [a ->] _ IH]; [done|].
  change (concat_strings (String a EmptyString :: cs))
    with (String a EmptyString +:+ concat_strings cs).
  rewrite string_app_cons, string_app_nil_l.
  change (Py.chars (String a (concat_strings cs)))
    with (String a EmptyString :: Py.chars (concat_strings cs)).
  by rewrite IH.
Qed.

(** X14.  The other way round: when every non-blank entry of a name list
    is, once trimmed, the name of a record whose char is a single character
    that leads back to that name, converting the list to symbols and the
    symbols to names gives the trimmed non-blank entries, one per line. *)
Theorem names_round_trip_identity σ name_list :
  (∀ n, n ∈ name_list → is_blank n = false →
        ∃ i j, name_map (self σ) !! Py.strip n = Some i ∧ one_char (char i)
               ∧ char_map (self σ) !! char i = Some j ∧ name j = Py.strip n) →
  names_round_trip name_list σ
  = (σ, Ok (name_lines (Py.strip <$> List.filter (λ n, negb (is_blank n)) name_list))).
Proof.
  intros Hback.
  assert (∃ insts js,
            Forall2 (λ n i, name_map (self σ) !! Py.strip n = Some i)
                    (List.filter (λ n, negb (is_blank n)) name_list) insts
            ∧ Forall one_char (char <$> insts)
            ∧ Forall2 (λ c j, char_map (self σ) !! c = Some j) (char <$> insts) js
            ∧ name <$> js = Py.strip <$> List.filter (λ n, negb (is_blank n)) name_list)
    as (insts & js & Hi & Hone & Hj & Hnames).
  { induction name_list as [|n l IH].
    - exists [], []. repeat split; constructor.
    - destruct IH as (insts & js & Hi & Hone & Hj & Hnames).
      { intros n' Hin. apply Hback. by right. }
      simpl. destruct (is_blank n) eqn:Hb; simpl.
      + by exists insts, js.
      + destruct (Hback n) as (i & j & Hni & Hci & Hcj & Hnj); [by left | done |].
        exists (i :: insts), (j :: js). repeat split.
        * by constructor.
        * rewrite fmap_cons. by constructor.
        * rewrite fmap_cons. by constructor.
        * by rewrite !fmap_cons, Hnj, Hnames. }
  unfold names_round_trip.
  erewrite bind_ok
    by (unfold convert_names_to_chars; apply (names_loop_known σ _ insts), Hi).
  rewrite string_app_nil_l. unfold convert_chars_to_names.
  rewrite (chars_concat_one_char _ Hone).
  rewrite (chars_loop_known σ _ js _ Hj). by rewrite string_app_nil_l, Hnames.
Qed.

Lemma names_round_trip_identity_witness :
  names_round_trip [" nop-B"; EmptyString; "nop-A "] st_two
  = (st_two,
     Ok (name_lines (Py.strip <$> List.filter (λ n, negb (is_blank n))
                                    [" nop-B"; EmptyString; "nop-A "]))).
Proof.
  apply (names_round_trip_identity st_two [" nop-B"; EmptyString; "nop-A "]).
  intros n Hin Hb.
  repeat (apply elem_of_cons in Hin as [->|Hin];
          [first [ discriminate Hb
                 | do 2 eexists; split; [vm_compute; reflexivity|];
                   split; [by eexists|]; split; vm_compute; reflexivity ]|]).
  exfalso. exact (proj1 (elem_of_nil n) Hin).
Defined.

(** A char of two characters is stored and written, but cannot be read
    back: the symbols are looked up one character at a time. *)
Example long_char_does_not_come_back :
  let σ := fst (GenomeManipulator_init (Some "inst_set.txt")
                  (state0 [("inst_set.txt", long_char_file)])) in
  snd (convert_names_to_chars ["nop-A"; "nop-B"] σ) = Ok "abc"
  ∧ snd (names_round_trip ["nop-A"; "nop-B"] σ) = Raise (SystemExit None)
  ∧ last (stdout (fst (names_round_trip ["nop-A"; "nop-B"] σ)))
    = Some (error_report "Unknown symbol: b").
Proof. vm_compute. repeat split; reflexivity. Qed.

(** ** The header, in general *)

Lemma last_pos_spec t i line_parts d :
  ((∀ j, line_parts !! j ≠ Some t) ∧ last_pos t i line_parts d = d)
  ∨ ∃ k, line_parts !! k = Some t
         ∧ (∀ j, (k < j)%nat → line_parts !! j ≠ Some t)
         ∧ last_pos t i line_parts d = (i + k)%nat.
Proof.
  revert i d. induction line_parts as [|p rest IH]; intros i d; simpl.
  - left. split; [|done]. intros j. by rewrite lookup_nil.
  - destruct (IH (S i) (if decide (p = t) then i else d)) as [[Hnone Heq]|(k & Hk & Hlast & Heq)].
    + destruct (decide (p = t)) as [->|Hne].
      * right. exists 0%nat. repeat split; [|lia].
        intros j Hj. destruct j as [|j]; [lia|]. apply Hnone.
      * left. split; [|done]. intros [|j]; simpl; [congruence | apply Hnone].
    + right. exists (S k). repeat split; [done| |lia].
      intros j Hj. destruct j as [|j]; [lia|]. apply Hlast. lia.
Qed.

Lemma header_column_last_pos line_parts t d :
  header_column line_parts t d (last_pos t 0 line_parts d).
Proof.
  destruct (last_pos_spec t 0 line_parts d) as [[Hnone ->]|(k & Hk & Hlast & ->)].
  - by left.
  - right. by split.
Qed.

(** X15.  Whatever the tokens of a header line are, the load does not fail
    on it: each of index, id, char, name gets the position of its last
    occurrence in the header, or keeps its default 0, 1, 2, 3 when the
    header does not name it; one warning is printed per other token; and
    the data loop runs on the lines after the header, which is never loaded
    as a row. *)
Theorem header_with_any_tokens filename text header rows first more σ :
  files σ !! filename = Some text →
  Py.lines text = header :: rows →
  line_tokens header = first :: more →
  Py.isdigit (Py.remove_char "," first) = false →
  ∃ cols,
    header_column (first :: more) "index" 0 (index_col_idx cols)
    ∧ header_column (first :: more) "id" 1 (id_col_idx cols)
    ∧ header_column (first :: more) "char" 2 (char_col_idx cols)
    ∧ header_column (first :: more) "name" 3 (name_col_idx cols)
    ∧ read_instruction_set_file filename σ
      = load_rows cols rows
          (printed_all
             (header_warnings (first :: more)
              ++ ("After parsing header, column indices are as follows:" +:+ newline)
                 :: cols_report cols) σ).
Proof.
  intros Hfile Hlines Htok Hdigit.
  exists (mkCols (last_pos "index" 0 (first :: more) 0)
                 (last_pos "id" 0 (first :: more) 1)
                 (last_pos "char" 0 (first :: more) 2)
                 (last_pos "name" 0 (first :: more) 3)).
  split; [apply header_column_last_pos|].
  split; [apply header_column_last_pos|].
  split; [apply header_column_last_pos|].
  split; [apply header_column_last_pos|].
  unfold read_instruction_set_file, open_for_reading.
  erewrite bind_ok by (by apply read_whole_file_run).
  erewrite bind_ok by (by eapply read_header_with_header).
  reflexivity.
Qed.

Lemma header_with_any_tokens_witness :
  ∃ cols,
    header_column ["name"; "char"; "name"] "index" 0 (index_col_idx cols)
    ∧ header_column ["name"; "char"; "name"] "id" 1 (id_col_idx cols)
    ∧ header_column ["name"; "char"; "name"] "char" 2 (char_col_idx cols)
    ∧ header_column ["name"; "char"; "name"] "name" 3 (name_col_idx cols)
    ∧ read_instruction_set_file "inst_set.txt"
        (state0 [("inst_set.txt", partial_header_file)])
      = load_rows cols ["a nop-A 0 0" +:+ newline]
          (printed_all
             (header_warnings ["name"; "char"; "name"]
              ++ ("After parsing header, column indices are as follows:" +:+ newline)
                 :: cols_report cols)
             (state0 [("inst_set.txt", partial_header_file)])).
Proof.
  apply (header_with_any_tokens "inst_set.txt" partial_header_file
           ("name, char, name" +:+ newline) ["a nop-A 0 0" +:+ newline]
           "name" ["char"; "name"]);
    reflexivity.
Defined.

(** With that header index stays at column 0, id and char are both read at
    column 1, and name at column 2: the row is rejected by [int]. *)
Example partial_header_columns :
  let r := read_instruction_set_file "inst_set.txt"
             (state0 [("inst_set.txt", partial_header_file)]) in
  snd r = Raise (ValueError_int "a")
  ∧ stdout (fst r) = ["After parsing header, column indices are as follows:" +:+ newline;
                      "index: 0" +:+ newline; "id: 1" +:+ newline;
                      "char: 1" +:+ newline; "name: 2" +:+ newline].
Proof. vm_compute. split; reflexivity. Qed.

(** ** What can be stored *)

Lemma split_ws_from_all_chars p cur s :
  Py.all_chars p cur = true → Py.all_chars p s = true →
  Forall (λ t, Py.all_chars p t = true) (Py.split_ws_from cur s).
Proof.
  revert cur. induction s as [|a s IH]; intros cur Hcur Hs; simpl.
  - destruct cur; constructor; [done | constructor].
  - simpl in Hs. apply andb_true_iff in Hs as [Ha Hs].
    destruct (Py.isspace a).
    + destruct cur; [by apply IH|]. constructor; [done | by apply IH].
    + apply IH; [|done]. by rewrite all_chars_snoc, Hcur, Ha.
Qed.

Lemma remove_char_gone old s :
  Py.all_chars (λ a, negb (Ascii.eqb a old)) (Py.remove_char old s) = true.
Proof.
  induction s as [|a s IH]; simpl; [done|].
  destruct (Ascii.eqb a old) eqn:Ha; [done|]. simpl. by rewrite Ha, IH.
Qed.

Lemma line_tokens_clean line : Forall clean_token (line_tokens line).
Proof.
  apply Forall_and. split; [apply line_tokens_are_tokens|].
  apply split_ws_from_all_chars; [done | apply remove_char_gone].
Qed.

Lemma records_all_insert P g new :
  records_all P g → P new → records_all P (insert_inst new g).
Proof.
  intros Hg Hnew i Hi. apply reachable_insert_inst in Hi as [->|Hi]; auto.
Qed.

Lemma load_line_clean cols line σ σ' r :
  load_line cols line σ = (σ', r) →
  records_all clean_record (self σ) → records_all clean_record (self σ').
Proof.
  intros Hrun Hσ. destruct r as [[]|e].
  - apply load_line_ok_inv in Hrun
      as (ti & zi & td & zd & c & n & _ & _ & _ & _ & Hc & Hn & ->).
    simpl. apply records_all_insert; [done|]. split; simpl.
    + by apply (Forall_lookup_1 _ _ _ _ (line_tokens_clean line) Hc).
    + by apply (Forall_lookup_1 _ _ _ _ (line_tokens_clean line) Hn).
  - by apply load_line_raise_inv in Hrun as [-> _].
Qed.

Lemma load_rows_clean cols rows σ σ' r :
  load_rows cols rows σ = (σ', r) →
  records_all clean_record (self σ) → records_all clean_record (self σ').
Proof.
  revert σ. induction rows as [|line rows IH]; intros σ Hrun Hσ.
  - by injection Hrun as <- <-.
  - rewrite load_rows_cons in Hrun. munfold.
    destruct (load_line cols line σ) as [σ1 [[]|e]] eqn:Hline.
    + eapply IH; [exact Hrun|]. by eapply load_line_clean.
    + injection Hrun as <- <-. by eapply load_line_clean.
Qed.

(** X16.  Whatever the table file holds and however the load ends, the
    char and the name of every stored record are non-empty and contain
    neither whitespace nor a comma; so are all keys of the char and name
    mappings, and a symbol string with a blank, a newline or a comma in it
    can never be converted. *)
Theorem stored_tokens_are_clean _filename σ0 σ r :
  GenomeManipulator_init _filename σ0 = (σ, r) →
  records_all clean_record (self σ)
  ∧ (∀ c, known_char σ c → clean_token c)
  ∧ (∀ n, known_name σ n → clean_token n).
Proof.
  intros Hload.
  assert (records_all clean_record (self σ)) as Hclean.
  { unfold GenomeManipulator_init in Hload.
    erewrite bind_ok in Hload by reflexivity.
    set (σe := mkState (files σ0) (stdout σ0) (next_oid σ0) empty_manip) in *.
    assert (records_all clean_record (self σe)) as He.
    { intros i [[k H]|[[k H]|[[k H]|[k H]]]]; simpl in H;
        by rewrite lookup_empty in H. }
    destruct _filename as [f|]; [|by injection Hload as <- <-].
    unfold read_instruction_set_file, open_for_reading in Hload.
    destruct (files σe !! f) as [text|] eqn:Hfile.
    2:{ erewrite bind_raise in Hload by (by apply read_whole_file_missing).
        by injection Hload as <- <-. }
    erewrite bind_ok in Hload by (by apply read_whole_file_run).
    destruct (read_header_cases text σe) as [Hh|(msgs & cols & rows & Hh)].
    - erewrite bind_raise in Hload by exact Hh. by injection Hload as <- <-.
    - erewrite bind_ok in Hload by exact Hh. simpl in Hload.
      by apply (load_rows_clean _ _ _ _ _ Hload). }
  destruct (GenomeManipulator_init_inv _ _ _ _ Hload) as [Hinv _].
  split; [done|]. split.
  - intros c [i Hi]. pose proof (inv_char_key _ _ Hinv _ _ Hi) as <-.
    apply (Hclean i). right; right; left. by exists (char i).
  - intros n [i Hi]. pose proof (inv_name_key _ _ Hinv _ _ Hi) as <-.
    apply (Hclean i). right; right; right. by exists (name i).
Qed.

Lemma stored_tokens_are_clean_witness :
  records_all clean_record (self st_two)
  ∧ (∀ c, known_char st_two c → clean_token c)
  ∧ (∀ n, known_name st_two n → clean_token n).
Proof.
  apply (stored_tokens_are_clean (Some "inst_set.txt")
           (state0 [("inst_set.txt", two_rows)]) st_two (Ok tt)).
  exact st_two_loaded.
Defined.

(** ** The script, to its end *)

Lemma main_first_half σ0 σ :
  GenomeManipulator_init (Some "inst_set.txt") σ0 = (σ, Ok tt) →
  Forall (known_char σ) (Py.chars alphabet) →
  ∃ names,
    convert_chars_to_names alphabet σ = (σ, Ok names)
    ∧ main σ0
      = main_second_half
          (file_stored "converted_symbol_list.org" names
             (printed (names +:+ newline) σ)).
Proof.
  intros Hload Hknown.
  destruct (Forall_lookup_records (char_map (self σ)) (λ c, c) _ Hknown) as [insts Hi].
  destruct insts as [|i insts]; [by inversion Hi|].
  set (names := name_lines (name <$> i :: insts)).
  assert (∀ σ', self σ' = self σ →
                convert_chars_to_names alphabet σ' = (σ', Ok names)) as Hconv.
  { intros σ' Hself. unfold convert_chars_to_names.
    rewrite (chars_loop_known σ' _ (i :: insts)) by (by rewrite Hself).
    by rewrite string_app_nil_l. }
  exists names. split; [by apply Hconv|].
  unfold main. erewrite bind_ok by exact Hload.
  erewrite bind_ok by (by apply Hconv).
  erewrite bind_ok by apply print_run.
  erewrite bind_ok by (by apply Hconv).
  erewrite bind_ok by (apply write_to_file_run_newline, last_char_name_lines).
  reflexivity.
Qed.

Lemma last_char_concat_tokens l :
  l ≠ [] → Forall is_token l →
  ∃ a, Py.last_char (concat_strings l) = Some a ∧ Ascii.eqb a "010" = false.
Proof.
  intros Hne Hl. induction Hl as [|t l Ht Hl IH]; [done|].
  destruct l as [|t' l].
  - simpl. rewrite string_app_nil_r. clear IH Hl Hne.
    destruct Ht as [Hne Hsp]. induction t as [|a t IHt]; [done|].
    apply no_space_not_newline in Hsp as [Ha Hsp].
    destruct t as [|b t]; [by exists a|]. apply IHt; done.
  - destruct IH as (a & Ha & Hnl); [done|]. exists a. split; [|done].
    change (concat_strings (t :: t' :: l)) with (t +:+ concat_strings (t' :: l)).
    rewrite last_char_app; [done|].
    intros Hempty. rewrite Hempty in Ha. discriminate Ha.
Qed.

(** X17.  When the table has a char for every letter and every line of the
    organism file is blank or a name of the table, at least one being a
    name, the script runs to its end: it prints the names of the alphabet
    and the symbols of the organism, stores the names in
    converted_symbol_list.org and the symbols, with a newline added, in
    converted_name_list.org, and leaves the table as loaded. *)
Theorem main_completes σ0 σ text :
  GenomeManipulator_init (Some "inst_set.txt") σ0 = (σ, Ok tt) →
  Forall (known_char σ) (Py.chars alphabet) →
  files σ !! "ancestor_extended.org" = Some text →
  Forall (accepted_entry σ) (organism_entries text) →
  Exists (λ n, is_blank n = false) (organism_entries text) →
  ∃ names symbols σ',
    main σ0 = (σ', Ok tt)
    ∧ convert_chars_to_names alphabet σ = (σ, Ok names)
    ∧ convert_names_to_chars (organism_entries text) σ = (σ, Ok symbols)
    ∧ stdout σ' = stdout σ ++ [names +:+ newline; symbols +:+ newline]
    ∧ files σ'
      = <["converted_name_list.org" := symbols +:+ newline]>
          (<["converted_symbol_list.org" := names]> (files σ))
    ∧ self σ' = self σ.
Proof.
  intros Hload Hknown Hfile Hacc Hsome.
  destruct (GenomeManipulator_init_inv _ _ _ _ Hload) as [Hinv _].
  destruct (main_first_half σ0 σ Hload Hknown) as (names & Hnames & Hmain).
  set (σ2 := file_stored "converted_symbol_list.org" names
               (printed (names +:+ newline) σ)) in *.
  assert (Forall (λ n, is_Some (name_map (self σ) !! Py.strip n))
            (List.filter (λ n, negb (is_blank n)) (organism_entries text))) as Hf.
  { apply List.Forall_forall. intros n Hn. apply List.filter_In in Hn as [Hin Hnb].
    rewrite List.Forall_forall in Hacc. apply Hacc; [done|].
    by destruct (is_blank n). }
  destruct (Forall_lookup_records _ Py.strip _ Hf) as [insts Hi].
  set (symbols := concat_strings (char <$> insts)).
  assert (∀ σ', self σ' = self σ →
                convert_names_to_chars (organism_entries text) σ' = (σ', Ok symbols))
    as Hconv.
  { intros σ' Hself. unfold convert_names_to_chars.
    rewrite (names_loop_known σ' _ insts) by (by rewrite Hself).
    by rewrite string_app_nil_l. }
  assert (insts ≠ []) as Hne.
  { intros ->. inversion Hi as [Hnil|]. apply Exists_exists in Hsome as (n & Hin & Hb).
    assert (In n (List.filter (λ n, negb (is_blank n)) (organism_entries text))) as Hn.
    { apply List.filter_In. split; [by apply list_elem_of_In | by rewrite Hb]. }
    rewrite <- Hnil in Hn. destruct Hn. }
  assert (Forall is_token (char <$> insts)) as Htok.
  { apply Forall_fmap. apply (Forall2_Forall_r _ _ _ _ Hi).
    apply Forall_forall. intros n _ i Hn. simpl.
    apply (inv_tokens _ _ Hinv). right; right; right. by eexists. }
  destruct (last_char_concat_tokens (char <$> insts)) as (a & Ha & Hnl);
    [by destruct insts | done |].
  exists names, symbols,
    (file_stored "converted_name_list.org" (symbols +:+ newline)
       (printed (symbols +:+ newline) σ2)).
  split; [|split; [done|split; [by apply Hconv|]]].
  - rewrite Hmain. unfold main_second_half.
    erewrite bind_ok
      by (apply (split_name_file_run _ text); simpl; by rewrite lookup_insert_ne).
    fold (organism_entries text).
    erewrite bind_ok by (by apply Hconv).
    erewrite bind_ok by apply print_run.
    erewrite bind_ok by (by apply Hconv).
    rewrite (write_to_file_run _ symbols a) by exact Ha. by rewrite Hnl.
  - split; [|done]. simpl. by rewrite <- app_assoc.
Qed.

Lemma main_completes_witness :
  ∃ names symbols σ',
    main (state0 script_files_ok) = (σ', Ok tt)
    ∧ convert_chars_to_names alphabet st_ok = (st_ok, Ok names)
    ∧ convert_names_to_chars (organism_entries organism_ok) st_ok = (st_ok, Ok symbols)
    ∧ stdout σ' = stdout st_ok ++ [names +:+ newline; symbols +:+ newline]
    ∧ files σ'
      = <["converted_name_list.org" := symbols +:+ newline]>
          (<["converted_symbol_list.org" := names]> (files st_ok))
    ∧ self σ' = self st_ok.
Proof.
  assert (organism_entries organism_ok
          = ["nop-C"; "nop-A"; EmptyString; "nop-B"; EmptyString]) as Hentries
    by (vm_compute; reflexivity).
  apply (main_completes (state0 script_files_ok) st_ok organism_ok).
  - vm_compute. reflexivity.
  - repeat constructor; unfold known_char; vm_compute; eauto.
  - vm_compute. reflexivity.
  - rewrite Hentries.
    repeat constructor; unfold accepted_entry, known_name; vm_compute;
      intros; first [discriminate | eauto].
  - rewrite Hentries. apply Exists_cons. left. reflexivity.
Defined.

(** The two files of a complete run. *)
Example script_run :
  let r := main (state0 script_files_ok) in
  snd r = Ok tt
  ∧ files (fst r) !! "converted_name_list.org" = Some ("cab" +:+ newline)
  ∧ Py.split_sep newline
      (default EmptyString (files (fst r) !! "converted_symbol_list.org")) !! 25%nat
    = Some "nop-Z".
Proof. vm_compute. repeat split; reflexivity. Qed.

Lemma names_loop_all_blank σ l out :
  Forall (λ n, is_blank n = true) l →
  for_ l out names_to_chars_step σ = (σ, Ok out).
Proof.
  induction 1 as [|n l Hn _ IH]; simpl; [done|].
  erewrite bind_ok by (by apply names_to_chars_step_blank). apply IH.
Qed.

(** X18.  When the table has a char for every letter but the organism file
    holds only blank lines (or nothing), the script writes the symbol list
    file, prints an empty line, and then fails with [IndexError] in
    [write_to_file], the conversion result being the empty string:
    converted_name_list.org is not written, and the exit status is 1. *)
Theorem main_blank_organism_file σ0 σ text :
  GenomeManipulator_init (Some "inst_set.txt") σ0 = (σ, Ok tt) →
  Forall (known_char σ) (Py.chars alphabet) →
  files σ !! "ancestor_extended.org" = Some text →
  Forall (λ n, is_blank n = true) (organism_entries text) →
  ∃ names,
    convert_chars_to_names alphabet σ = (σ, Ok names)
    ∧ main σ0
      = (printed newline
           (file_stored "converted_symbol_list.org" names
              (printed (names +:+ newline) σ)),
         Raise IndexError)
    ∧ exit_status (snd (main σ0)) = 1.
Proof.
  intros Hload Hknown Hfile Hblank.
  destruct (main_first_half σ0 σ Hload Hknown) as (names & Hnames & Hmain).
  exists names. split; [done|].
  assert (main σ0
          = (printed newline
               (file_stored "converted_symbol_list.org" names
                  (printed (names +:+ newline) σ)),
             Raise IndexError)) as Hrun.
  { rewrite Hmain. unfold main_second_half.
    erewrite bind_ok
      by (apply (split_name_file_run _ text); simpl; by rewrite lookup_insert_ne).
    fold (organism_entries text).
    erewrite bind_ok by (by apply names_loop_all_blank).
    erewrite bind_ok by apply print_run.
    erewrite bind_ok by (by apply names_loop_all_blank).
    reflexivity. }
  by rewrite Hrun.
Qed.

Lemma main_blank_organism_file_witness :
  ∃ names,
    convert_chars_to_names alphabet
      (fst (GenomeManipulator_init (Some "inst_set.txt") (state0 script_files_blank)))
    = (fst (GenomeManipulator_init (Some "inst_set.txt") (state0 script_files_blank)),
       Ok names)
    ∧ main (state0 script_files_blank)
      = (printed newline
           (file_stored "converted_symbol_list.org" names
              (printed (names +:+ newline)
                 (fst (GenomeManipulator_init (Some "inst_set.txt")
                         (state0 script_files_blank))))),
         Raise IndexError)
    ∧ exit_status (snd (main (state0 script_files_blank))) = 1.
Proof.
  apply (main_blank_organism_file (state0 script_files_blank) _ "
  
").
  - vm_compute. reflexivity.
  - repeat constructor; unfold known_char; vm_compute; eauto.
  - vm_compute. reflexivity.
  - repeat constructor.
Defined.

(** X19.  A missing input file ends the script with [FileNotFoundError]
    and exit status 1: at once, with nothing printed or written, when it is
    inst_set.txt; and when it is ancestor_extended.org, after the names of
    the alphabet have been printed and written to converted_symbol_list.org. *)
Theorem main_missing_input_file σ0 :
  (files σ0 !! "inst_set.txt" = None →
   main σ0 = (mkState (files σ0) (stdout σ0) (next_oid σ0) empty_manip,
              Raise (FileNotFoundError "inst_set.txt"))
   ∧ exit_status (snd (main σ0)) = 1)
  ∧ (∀ σ,
       GenomeManipulator_init (Some "inst_set.txt") σ0 = (σ, Ok tt) →
       Forall (known_char σ) (Py.chars alphabet) →
       files σ !! "ancestor_extended.org" = None →
       ∃ names,
         convert_chars_to_names alphabet σ = (σ, Ok names)
         ∧ main σ0
           = (file_stored "converted_symbol_list.org" names
                (printed (names +:+ newline) σ),
              Raise (FileNotFoundError "ancestor_extended.org"))
         ∧ exit_status (snd (main σ0)) = 1).
Proof.
  split.
  - intros Hf.
    assert (main σ0 = (mkState (files σ0) (stdout σ0) (next_oid σ0) empty_manip,
                       Raise (FileNotFoundError "inst_set.txt"))) as Hrun.
    { unfold main. erewrite bind_raise; [reflexivity|].
      unfold GenomeManipulator_init. erewrite bind_ok by reflexivity.
      unfold read_instruction_set_file, open_for_reading.
      erewrite bind_raise; [reflexivity|]. by apply read_whole_file_missing. }
    by rewrite Hrun.
  - intros σ Hload Hknown Hf.
    destruct (main_first_half σ0 σ Hload Hknown) as (names & Hnames & Hmain).
    exists names. split; [done|].
    assert (main σ0
            = (file_stored "converted_symbol_list.org" names
                 (printed (names +:+ newline) σ),
               Raise (FileNotFoundError "ancestor_extended.org"))) as Hrun.
    { rewrite Hmain. unfold main_second_half, split_name_file.
      erewrite bind_raise; [reflexivity|].
      erewrite bind_raise; [reflexivity|].
      apply read_whole_file_missing. simpl. by rewrite lookup_insert_ne. }
    by rewrite Hrun.
Qed.

Lemma main_missing_input_file_witness :
  (main (state0 []) = (mkState ∅ [] 0 empty_manip, Raise (FileNotFoundError "inst_set.txt"))
   ∧ exit_status (snd (main (state0 []))) = 1)
  ∧ (∃ names,
       convert_chars_to_names alphabet
         (fst (GenomeManipulator_init (Some "inst_set.txt")
                 (state0 [("inst_set.txt", full_table_file)])))
       = (fst (GenomeManipulator_init (Some "inst_set.txt")
                 (state0 [("inst_set.txt", full_table_file)])), Ok names)
       ∧ main (state0 [("inst_set.txt", full_table_file)])
         = (file_stored "converted_symbol_list.org" names
              (printed (names +:+ newline)
                 (fst (GenomeManipulator_init (Some "inst_set.txt")
                         (state0 [("inst_set.txt", full_table_file)])))),
            Raise (FileNotFoundError "ancestor_extended.org"))
       ∧ exit_status (snd (main (state0 [("inst_set.txt", full_table_file)]))) = 1).
Proof.
  split.
  - apply (proj1 (main_missing_input_file (state0 []))). reflexivity.
  - apply (proj2 (main_missing_input_file (state0 [("inst_set.txt", full_table_file)]))).
    + vm_compute. reflexivity.
    + repeat constructor; unfold known_char; vm_compute; eauto.
    + vm_compute. reflexivity.
Defined.

(** ** A manipulator built without a file *)

(** X21.  [GenomeManipulator()] reads and prints nothing and leaves four
    empty mappings; on such a manipulator [convert_chars_to_names] fails on
    every non-empty string, reporting its first character, and
    [convert_names_to_chars] returns the empty string for a list of blank
    entries and fails on its first non-blank entry otherwise. *)
Theorem empty_table_converts_nothing σ0 :
  let σ := mkState (files σ0) (stdout σ0) (next_oid σ0) empty_manip in
  GenomeManipulator_init None σ0 = (σ, Ok tt)
  ∧ (∀ a s,
       convert_chars_to_names (String a s) σ
       = (printed (error_report ("Unknown symbol: " +:+ String a EmptyString)) σ,
          Raise (SystemExit None)))
  ∧ (∀ name_list,
       Forall (λ n, is_blank n = true) name_list →
       convert_names_to_chars name_list σ = (σ, Ok EmptyString))
  ∧ (∀ pre n post,
       Forall (λ n, is_blank n = true) pre → is_blank n = false →
       convert_names_to_chars (pre ++ n :: post) σ
       = (printed (error_report ("Unknown name: " +:+ Py.strip n)) σ,
          Raise (SystemExit None))).
Proof.
  intros σ. split; [reflexivity|]. split; [|split].
  - intros a s. unfold convert_chars_to_names.
    apply (chars_loop_stops σ [] (String a EmptyString) (Py.chars s)); [constructor|].
    intros [i Hi]. simpl in Hi. by rewrite lookup_empty in Hi.
  - intros l Hl. by apply names_loop_all_blank.
  - intros pre n post Hpre Hn. unfold convert_names_to_chars.
    apply names_loop_stops.
    + eapply Forall_impl; [exact Hpre|]. intros m Hm Hb. congruence.
    + intros Hacc. destruct (Hacc Hn) as [i Hi]. simpl in Hi.
      by rewrite lookup_empty in Hi.
Qed.

Lemma empty_table_converts_nothing_witness :
  convert_names_to_chars ([" "; EmptyString] ++ "nop-A" :: [])
    (mkState ∅ [] 0 empty_manip)
  = (printed (error_report ("Unknown name: " +:+ Py.strip "nop-A"))
       (mkState ∅ [] 0 empty_manip),
     Raise (SystemExit None)).
Proof.
  apply (proj2 (proj2 (proj2 (empty_table_converts_nothing (mkState ∅ [] 0 empty_manip))))
           [" "; EmptyString] "nop-A" []).
  - repeat constructor.
  - reflexivity.
Defined.

(** ** The headerless file, to the stored row *)

(** C5, as stated, fails for a first token that is a number but not a
    string of digits: [int] reads -1, yet [isdigit] refuses it, so the
    first line is taken as a header (with a warning for each of its tokens)
    and its row is never loaded. *)
Lemma signed_first_token_is_taken_as_header :
  let r := read_instruction_set_file "inst_set.txt"
             (state0 [("inst_set.txt", signed_first_file)]) in
  Py.int "-1" = Some (-1)
  ∧ snd r = Ok tt
  ∧ stdout (fst r) !! 0%nat = Some ("Found unknown column: -1" +:+ newline)
  ∧ index_map (self (fst r)) !! (-1) = None
  ∧ char_map (self (fst r)) !! "a" = None
  ∧ char_map (self (fst r)) !! "b" = Some (mkInstruction 0 0 0 "b" "nop-B").
Proof. vm_compute. repeat split; reflexivity. Qed.

(** C5, amended.  When the first token of the first line, commas removed,
    consists of digits only ([isdigit]), the loader reports that there is
    no header, keeps the columns index=0, id=1, char=2, name=3, and runs the
    data loop from the first line of the file on.  So a first line with the
    fields [first], [td], [c], [n], of which [int] reads the first two, is
    loaded as a row: its record is stored before the other lines are
    handled, and however the load ends its index, id, char and name are
    keys of the four mappings. *)
Theorem headerless_file_uses_default_columns filename text line1 rows first more σ :
  files σ !! filename = Some text →
  Py.lines text = line1 :: rows →
  line_tokens line1 = first :: more →
  Py.isdigit (Py.remove_char "," first) = true →
  let cols := mkCols 0 1 2 3 in
  let σh := printed_all
              (("No header detected. Using default column indices:" +:+ newline)
               :: cols_report cols) σ in
  read_instruction_set_file filename σ
  = (load_line cols line1;; load_rows cols rows) σh
  ∧ (∀ td c n rest zi zd,
       more = td :: c :: n :: rest →
       Py.int first = Some zi → Py.int td = Some zd →
       let inst := mkInstruction (next_oid σ) zi zd c n in
       read_instruction_set_file filename σ
       = load_rows cols rows (row_loaded inst σh)
       ∧ (∀ σ' r,
            read_instruction_set_file filename σ = (σ', r) →
            is_Some (index_map (self σ') !! zi)
            ∧ is_Some (id_map (self σ') !! zd)
            ∧ is_Some (char_map (self σ') !! c)
            ∧ is_Some (name_map (self σ') !! n))).
Proof.
  intros Hfile Hlines Htok Hdigit cols σh.
  assert (read_instruction_set_file filename σ
          = (load_line cols line1;; load_rows cols rows) σh) as Hrun.
  { unfold read_instruction_set_file, open_for_reading.
    erewrite bind_ok by (by apply read_whole_file_run).
    erewrite bind_ok by (by eapply read_header_headerless).
    apply load_rows_cons. }
  split; [done|].
  intros td c n rest zi zd -> Hzi Hzd inst.
  assert (read_instruction_set_file filename σ
          = load_rows cols rows (row_loaded inst σh)) as Hrow.
  { rewrite Hrun. erewrite bind_ok; [reflexivity|].
    apply (load_line_ok cols line1 first zi td zd c n σh); by rewrite ?Htok. }
  split; [done|].
  intros σ' r Hend. rewrite Hrow in Hend.
  apply load_rows_grown in Hend as ((K1 & K2 & K3 & K4) & _).
  split; [|split; [|split]].
  - apply K1. simpl. rewrite lookup_insert_eq. by eexists.
  - apply K2. simpl. rewrite lookup_insert_eq. by eexists.
  - apply K3. simpl. rewrite lookup_insert_eq. by eexists.
  - apply K4. simpl. rewrite lookup_insert_eq. by eexists.
Qed.

Lemma headerless_file_uses_default_columns_witness :
  read_instruction_set_file "inst_set.txt" (state0 [("inst_set.txt", no_header_file)])
  = load_rows (mkCols 0 1 2 3) ["0 0 a nop-A" +:+ newline]
      (row_loaded (mkInstruction 0 3 7 "c" "nop-C")
         (printed_all
            (("No header detected. Using default column indices:" +:+ newline)
             :: cols_report (mkCols 0 1 2 3))
            (state0 [("inst_set.txt", no_header_file)])))
  ∧ (∀ σ' r,
       read_instruction_set_file "inst_set.txt" (state0 [("inst_set.txt", no_header_file)])
       = (σ', r) →
       is_Some (index_map (self σ') !! 3)
       ∧ is_Some (id_map (self σ') !! 7)
       ∧ is_Some (char_map (self σ') !! "c")
       ∧ is_Some (name_map (self σ') !! "nop-C")).
Proof.
  apply (proj2 (headerless_file_uses_default_columns
                  "inst_set.txt" no_header_file
                  ("3 7 c nop-C" +:+ newline) ["0 0 a nop-A" +:+ newline]
                  "3" ["7"; "c"; "nop-C"]
                  (state0 [("inst_set.txt", no_header_file)])
                  eq_refl eq_refl eq_refl eq_refl)
           "7" "c" "nop-C" [] 3 7);
    reflexivity.
Defined.
